(** * device.c : interrupt servicing, power transitions and hardware binding

    A shallow embedding of the five framework callbacks of [src/device.c]
    ([OnInterruptIsr], [OnD0Entry], [OnD0Exit], [OnPrepareHardware],
    [OnReleaseHardware]) as state-passing functions over the device
    context, together with an event log that records every call into a
    collaborator (the [Tch*] controller routines and the [Spb*] transport
    routines), every diagnostic message and every request completion, in
    program order. *)

From Stdlib Require Import ZArith List Bool Lia.
Import ListNotations.
Open Scope Z_scope.

(** ** NTSTATUS

    [NTSTATUS] is a signed 32-bit [LONG]; the constants are written in the
    headers as unsigned 32-bit hexadecimal numbers and [NT_SUCCESS] tests
    the sign of the value. *)

Module NtStatus.

Definition NTSTATUS : Type := Z.

(** The value of a 32-bit pattern read as a signed [LONG]. *)
Definition to_LONG (x : Z) : Z :=
  let m := x mod 2 ^ 32 in
  if m <? 2 ^ 31 then m else m - 2 ^ 32.

Definition NT_SUCCESS (status : NTSTATUS) : bool := 0 <=? status.

Definition STATUS_SUCCESS : NTSTATUS := 0.
Definition STATUS_NO_MORE_ENTRIES : NTSTATUS := to_LONG 0x8000001A.
Definition STATUS_BUFFER_TOO_SMALL : NTSTATUS := to_LONG 0xC0000023.
Definition STATUS_INSUFFICIENT_RESOURCES : NTSTATUS := to_LONG 0xC000009A.

End NtStatus.
Export NtStatus.

(** The outcome of a framework call that hands back a value through an
    out-parameter only when it succeeds: [Err status] carries the failure
    status (the out-parameter is left alone), [Ok a] stands for
    [STATUS_SUCCESS] with the out-parameter set to [a]. *)
Inductive Result (A : Type) : Type :=
| Ok (a : A)
| Err (status : NTSTATUS).
Arguments Ok {A} a.
Arguments Err {A} status.

Definition status_of {A : Type} (r : Result A) : NTSTATUS :=
  match r with
  | Ok _ => STATUS_SUCCESS
  | Err status => status
  end.

(** ** Hardware resource descriptors (wdm.h) *)

Module CmResource.

Definition CmResourceTypeConnection : Z := 132.
Definition CM_RESOURCE_CONNECTION_CLASS_SERIAL : Z := 2.
Definition CM_RESOURCE_CONNECTION_TYPE_SERIAL_I2C : Z := 1.

(** [CM_PARTIAL_RESOURCE_DESCRIPTOR]: the resource [Type] and the union [u]
    read through its [Connection] member, which is the only view of the
    union that device.c takes. [IdLowPart] and [IdHighPart] are [ULONG]. *)
Record CM_PARTIAL_RESOURCE_DESCRIPTOR : Type := {
  ResType : Z;
  Connection_Class : Z;
  Connection_Type : Z;
  Connection_IdLowPart : Z;
  Connection_IdHighPart : Z
}.

(** [LARGE_INTEGER]: [LowPart] is a [DWORD], [HighPart] a signed [LONG]. *)
Record LARGE_INTEGER : Type := {
  LowPart : Z;
  HighPart : Z
}.

(** The 64-bit pattern held by a [LARGE_INTEGER]. *)
Definition QuadBits (v : LARGE_INTEGER) : Z :=
  Z.lor (Z.shiftl (HighPart v mod 2 ^ 32) 32) (LowPart v mod 2 ^ 32).

End CmResource.
Export CmResource.

(** ** Types that device.c takes from headers outside the file

    [HID_INPUT_REPORT] and its size, the controller state that
    [devContext->TouchContext] points to, and the transport's own part of
    [SPB_CONTEXT] are declared in headers that device.c only includes. They
    are parameters of the development; the size of a C structure is at
    least one byte. *)

Class Platform : Type := {
  HID_INPUT_REPORT : Type;
  sizeof_HID_INPUT_REPORT : Z;
  sizeof_HID_INPUT_REPORT_pos : 0 < sizeof_HID_INPUT_REPORT;
  TOUCH_CONTEXT : Type;
  SPB_TARGET : Type
}.

Section DataModel.
Context {P : Platform}.

(** [SPB_CONTEXT]: the resource hub connection id, written by
    [OnPrepareHardware], and the transport's own fields. *)
Record SPB_CONTEXT : Type := {
  I2cResHubId : LARGE_INTEGER;
  SpbTarget : SPB_TARGET
}.

(** A HIDClass read request: its identity, the capacity of its output
    buffer in bytes, the report that the driver copied to the start of the
    buffer ([None] while the driver has written nothing), and the
    [Information] field of its I/O status block. *)
Record WDFREQUEST : Type := {
  RequestId : Z;
  OutputBufferLength : Z;
  OutputBuffer : option HID_INPUT_REPORT;
  Information : Z
}.

(** A manual framework queue, oldest request first. *)
Definition WDFQUEUE : Type := list WDFREQUEST.

(** [DEVICE_EXTENSION], with the fields that device.c reads or writes. *)
Record DEVICE_EXTENSION : Type := {
  TouchContext : TOUCH_CONTEXT;
  I2CContext : SPB_CONTEXT;
  InputMode : Z;
  DiagnosticMode : bool;
  PingPongQueue : WDFQUEUE;
  ServiceInterruptsAfterD0Entry : bool
}.

Definition set_TouchContext (v : TOUCH_CONTEXT) (d : DEVICE_EXTENSION) :=
  {| TouchContext := v;
     I2CContext := I2CContext d;
     InputMode := InputMode d;
     DiagnosticMode := DiagnosticMode d;
     PingPongQueue := PingPongQueue d;
     ServiceInterruptsAfterD0Entry := ServiceInterruptsAfterD0Entry d |}.

Definition set_I2CContext (v : SPB_CONTEXT) (d : DEVICE_EXTENSION) :=
  {| TouchContext := TouchContext d;
     I2CContext := v;
     InputMode := InputMode d;
     DiagnosticMode := DiagnosticMode d;
     PingPongQueue := PingPongQueue d;
     ServiceInterruptsAfterD0Entry := ServiceInterruptsAfterD0Entry d |}.

Definition set_PingPongQueue (v : WDFQUEUE) (d : DEVICE_EXTENSION) :=
  {| TouchContext := TouchContext d;
     I2CContext := I2CContext d;
     InputMode := InputMode d;
     DiagnosticMode := DiagnosticMode d;
     PingPongQueue := v;
     ServiceInterruptsAfterD0Entry := ServiceInterruptsAfterD0Entry d |}.

Definition set_ServiceInterruptsAfterD0Entry (v : bool) (d : DEVICE_EXTENSION) :=
  {| TouchContext := TouchContext d;
     I2CContext := I2CContext d;
     InputMode := InputMode d;
     DiagnosticMode := DiagnosticMode d;
     PingPongQueue := PingPongQueue d;
     ServiceInterruptsAfterD0Entry := v |}.

Definition set_I2cResHubId (v : LARGE_INTEGER) (c : SPB_CONTEXT) :=
  {| I2cResHubId := v; SpbTarget := SpbTarget c |}.

(** ** The event log *)

(** The collaborator routines that device.c calls. *)
Inductive Callee : Type :=
| CallTchServiceInterrupts
| CallTchWakeDevice
| CallTchCompleteIdleIrp
| CallTchStandbyDevice
| CallSpbTargetInitialize
| CallTchAllocateContext
| CallTchRegistryGetControllerSettings
| CallTchStartDevice
| CallTchStopDevice
| CallTchFreeContext
| CallSpbTargetDeinitialize.

(** One constructor per [Trace] statement of device.c. *)
Inductive TraceSite : Type :=
| NoRequestPending
| ErrorRetrievingOutputBuffer
| RequestBufferTooSmall (length : Z)
| ErrorSettingD0
| ErrorExitingD0
| ErrorFindingConnection
| ErrorSpbInitialization
| ErrorAllocatingTouchContext
| ErrorRetrievingControllerSettings
| ErrorStartingTouchDevice
| ErrorStoppingDevice
| ErrorFreeingTouchContext.

(** The two [DbgPrintEx] statements of [OnInterruptIsr]. *)
Inductive DbgSite : Type :=
| DbgReported (reportsLen : Z)
| DbgCopy (i : Z).

Inductive Event : Type :=
| EvCall (c : Callee)
| EvTrace (site : TraceSite) (status : NTSTATUS)
| EvDbgPrint (site : DbgSite)
| EvComplete (request : WDFREQUEST) (status : NTSTATUS).

(** The state that the callbacks run in: the device context and the log of
    everything observable they did, oldest event first. *)
Record World : Type := {
  dev : DEVICE_EXTENSION;
  log : list Event
}.

(** ** A state monad over [World] *)

Definition M (A : Type) : Type := World -> A * World.

Definition ret {A : Type} (a : A) : M A := fun w => (a, w).

Definition bind {A B : Type} (m : M A) (k : A -> M B) : M B :=
  fun w => let (a, w') := m w in k a w'.

Definition get_dev : M DEVICE_EXTENSION := fun w => (dev w, w).

Definition modify_dev (f : DEVICE_EXTENSION -> DEVICE_EXTENSION) : M unit :=
  fun w => (tt, {| dev := f (dev w); log := log w |}).

Definition emit (e : Event) : M unit :=
  fun w => (tt, {| dev := dev w; log := log w ++ [e] |}).

Definition Trace (site : TraceSite) (status : NTSTATUS) : M unit :=
  emit (EvTrace site status).

Definition DbgPrintEx (site : DbgSite) : M unit := emit (EvDbgPrint site).

Definition when (b : bool) (m : M unit) : M unit := if b then m else ret tt.

(** ** Projections of the log *)

Definition calls (l : list Event) : list Callee :=
  flat_map (fun e => match e with EvCall c => [c] | _ => [] end) l.

Definition completions (l : list Event) : list (WDFREQUEST * NTSTATUS) :=
  flat_map (fun e => match e with
                     | EvComplete request status => [(request, status)]
                     | _ => []
                     end) l.

(** The reports that found no pending request. *)
Definition dropped (l : list Event) : nat :=
  length (filter (fun e => match e with
                           | EvTrace NoRequestPending _ => true
                           | _ => false
                           end) l).

End DataModel.

Declare Scope drv_scope.
Delimit Scope drv_scope with drv.
Notation "x <- m ;; k" := (bind m (fun x => k))
  (at level 61, m at next level, right associativity) : drv_scope.
Notation "m ;; k" := (bind m (fun _ => k))
  (at level 61, right associativity) : drv_scope.

(** ** The collaborators

    The controller routines ([Tch*], controller.h and idle.h) and the
    transport routines ([Spb*], spb.h) are defined outside device.c. Each
    is a parameter: a function of the objects that device.c hands it
    (by value or through a pointer), returning its status together with the
    new contents of the objects it received a pointer to.
    [TchServiceInterrupts] also returns the report array and its length as
    a list; [TchCompleteIdleIrp] receives the whole device context and may
    complete requests. *)

Class Collaborators {P : Platform} : Type := {
  TchServiceInterrupts :
    TOUCH_CONTEXT -> SPB_CONTEXT -> Z ->
    NTSTATUS * list HID_INPUT_REPORT * TOUCH_CONTEXT * SPB_CONTEXT;
  TchWakeDevice :
    TOUCH_CONTEXT -> SPB_CONTEXT -> NTSTATUS * TOUCH_CONTEXT * SPB_CONTEXT;
  TchStandbyDevice :
    TOUCH_CONTEXT -> SPB_CONTEXT -> NTSTATUS * TOUCH_CONTEXT * SPB_CONTEXT;
  TchStartDevice :
    TOUCH_CONTEXT -> SPB_CONTEXT -> NTSTATUS * TOUCH_CONTEXT * SPB_CONTEXT;
  TchStopDevice :
    TOUCH_CONTEXT -> SPB_CONTEXT -> NTSTATUS * TOUCH_CONTEXT * SPB_CONTEXT;
  TchAllocateContext : TOUCH_CONTEXT -> NTSTATUS * TOUCH_CONTEXT;
  TchRegistryGetControllerSettings : TOUCH_CONTEXT -> NTSTATUS * TOUCH_CONTEXT;
  TchFreeContext : TOUCH_CONTEXT -> NTSTATUS * TOUCH_CONTEXT;
  SpbTargetInitialize : SPB_CONTEXT -> NTSTATUS * SPB_CONTEXT;
  SpbTargetDeinitialize : SPB_CONTEXT -> SPB_CONTEXT;
  TchCompleteIdleIrp :
    DEVICE_EXTENSION -> DEVICE_EXTENSION * list (WDFREQUEST * NTSTATUS)
}.

Section Device.
Context {P : Platform} {C : Collaborators}.
Local Open Scope drv_scope.

(** *** Framework routines (wdf) *)

(** Pops the oldest request of a manual queue; an empty queue gives
    [STATUS_NO_MORE_ENTRIES]. The second component is the queue afterwards. *)
Definition WdfIoQueueRetrieveNextRequest (Queue : WDFQUEUE)
  : Result WDFREQUEST * WDFQUEUE :=
  match Queue with
  | [] => (Err STATUS_NO_MORE_ENTRIES, [])
  | request :: rest => (Ok request, rest)
  end.

(** Gives the length of the request's output buffer, or
    [STATUS_BUFFER_TOO_SMALL] when the buffer is empty or shorter than
    [MinimumRequiredSize]. *)
Definition WdfRequestRetrieveOutputBuffer
  (Request : WDFREQUEST) (MinimumRequiredSize : Z) : Result Z :=
  if (OutputBufferLength Request =? 0)
     || (OutputBufferLength Request <? MinimumRequiredSize)
  then Err STATUS_BUFFER_TOO_SMALL
  else Ok (OutputBufferLength Request).

(** [RtlCopyMemory] of one report to the start of the output buffer. *)
Definition RtlCopyMemory (Request : WDFREQUEST) (report : HID_INPUT_REPORT)
  : WDFREQUEST :=
  {| RequestId := RequestId Request;
     OutputBufferLength := OutputBufferLength Request;
     OutputBuffer := Some report;
     Information := Information Request |}.

Definition WdfRequestSetInformation (Request : WDFREQUEST) (info : Z)
  : WDFREQUEST :=
  {| RequestId := RequestId Request;
     OutputBufferLength := OutputBufferLength Request;
     OutputBuffer := OutputBuffer Request;
     Information := info |}.

Definition WdfRequestComplete (Request : WDFREQUEST) (Status : NTSTATUS)
  : M unit :=
  emit (EvComplete Request Status).

(** *** Calls into the collaborators

    Each call is logged, and what the callee left in the objects it had a
    pointer to is stored back in the device context. *)

Definition call_touch_spb
  (c : Callee)
  (f : TOUCH_CONTEXT -> SPB_CONTEXT -> NTSTATUS * TOUCH_CONTEXT * SPB_CONTEXT)
  : M NTSTATUS :=
  fun w =>
    let d := dev w in
    let '(status, tc, spb) := f (TouchContext d) (I2CContext d) in
    (status,
     {| dev := set_I2CContext spb (set_TouchContext tc d);
        log := log w ++ [EvCall c] |}).

Definition call_touch
  (c : Callee) (f : TOUCH_CONTEXT -> NTSTATUS * TOUCH_CONTEXT) : M NTSTATUS :=
  fun w =>
    let d := dev w in
    let '(status, tc) := f (TouchContext d) in
    (status,
     {| dev := set_TouchContext tc d; log := log w ++ [EvCall c] |}).

Definition call_TchServiceInterrupts
  : M (NTSTATUS * list HID_INPUT_REPORT) :=
  fun w =>
    let d := dev w in
    let '(status, reports, tc, spb) :=
      TchServiceInterrupts (TouchContext d) (I2CContext d) (InputMode d) in
    ((status, reports),
     {| dev := set_I2CContext spb (set_TouchContext tc d);
        log := log w ++ [EvCall CallTchServiceInterrupts] |}).

Definition call_SpbTargetInitialize : M NTSTATUS :=
  fun w =>
    let d := dev w in
    let '(status, spb) := SpbTargetInitialize (I2CContext d) in
    (status,
     {| dev := set_I2CContext spb d;
        log := log w ++ [EvCall CallSpbTargetInitialize] |}).

Definition call_SpbTargetDeinitialize : M unit :=
  fun w =>
    let d := dev w in
    (tt,
     {| dev := set_I2CContext (SpbTargetDeinitialize (I2CContext d)) d;
        log := log w ++ [EvCall CallSpbTargetDeinitialize] |}).

Definition call_TchCompleteIdleIrp : M unit :=
  fun w =>
    let '(d, done) := TchCompleteIdleIrp (dev w) in
    (tt,
     {| dev := d;
        log := log w ++ EvCall CallTchCompleteIdleIrp
                 :: map (fun c => EvComplete (fst c) (snd c)) done |}).

(** *** OnInterruptIsr *)

(** One iteration of the loop over the reports (lines 113-178), for the
    report [hidReportsFromDriver[i]]. *)
Definition service_report (i : Z) (report : HID_INPUT_REPORT) : M unit :=
  devContext <- get_dev ;;
  let (popped, rest) :=
    WdfIoQueueRetrieveNextRequest (PingPongQueue devContext) in
  modify_dev (set_PingPongQueue rest) ;;
  match popped with
  | Err status =>
      (* no request pending: the report is ignored, [continue] *)
      Trace NoRequestPending status
  | Ok request =>
      match WdfRequestRetrieveOutputBuffer request sizeof_HID_INPUT_REPORT with
      | Err status =>
          Trace ErrorRetrievingOutputBuffer status ;;
          WdfRequestComplete request status
      | Ok hidReportRequestBufferLength =>
          if hidReportRequestBufferLength <? sizeof_HID_INPUT_REPORT then
            let status := STATUS_BUFFER_TOO_SMALL in
            Trace (RequestBufferTooSmall hidReportRequestBufferLength) status ;;
            WdfRequestComplete request status
          else
            let request := RtlCopyMemory request report in
            DbgPrintEx (DbgCopy i) ;;
            let request :=
              WdfRequestSetInformation request sizeof_HID_INPUT_REPORT in
            WdfRequestComplete request STATUS_SUCCESS
      end
  end.

(** [for (int i = 0; i < reportsLen; i++)], started at index [i], over the
    reports from index [i] on. *)
Fixpoint service_reports (i : Z) (reports : list HID_INPUT_REPORT) : M unit :=
  match reports with
  | [] => ret tt
  | report :: rest =>
      service_report i report ;;
      service_reports (i + 1) rest
  end.

(** Everything before the [exit] label. *)
Definition OnInterruptIsr_body : M unit :=
  devContext <- get_dev ;;
  if DiagnosticMode devContext then
    ret tt
  else
    serviced <- call_TchServiceInterrupts ;;
    let (status, hidReportsFromDriver) := serviced in
    if negb (NT_SUCCESS status) then
      ret tt
    else
      DbgPrintEx (DbgReported (Z.of_nat (length hidReportsFromDriver))) ;;
      service_reports 0 hidReportsFromDriver.

Definition OnInterruptIsr : M bool :=
  OnInterruptIsr_body ;;
  ret true.

(** *** OnD0Entry and OnD0Exit *)

Definition OnD0Entry : M NTSTATUS :=
  status <- call_touch_spb CallTchWakeDevice TchWakeDevice ;;
  when (negb (NT_SUCCESS status)) (Trace ErrorSettingD0 status) ;;
  modify_dev (set_ServiceInterruptsAfterD0Entry true) ;;
  call_TchCompleteIdleIrp ;;
  ret status.

Definition OnD0Exit : M NTSTATUS :=
  status <- call_touch_spb CallTchStandbyDevice TchStandbyDevice ;;
  when (negb (NT_SUCCESS status)) (Trace ErrorExitingD0 status) ;;
  ret status.

(** *** OnPrepareHardware *)

(** The test of lines 333-335. *)
Definition is_I2C_connection (res : CM_PARTIAL_RESOURCE_DESCRIPTOR) : bool :=
  (ResType res =? CmResourceTypeConnection)
  && (Connection_Class res =? CM_RESOURCE_CONNECTION_CLASS_SERIAL)
  && (Connection_Type res =? CM_RESOURCE_CONNECTION_TYPE_SERIAL_I2C).

(** What lines 337-340 store: the [ULONG] low part as it is, the [ULONG]
    high part converted to the signed [HighPart]. *)
Definition connection_id (res : CM_PARTIAL_RESOURCE_DESCRIPTOR)
  : LARGE_INTEGER :=
  {| LowPart := Connection_IdLowPart res;
     HighPart := to_LONG (Connection_IdHighPart res) |}.

Definition store_I2cResHubId (id : LARGE_INTEGER) (d : DEVICE_EXTENSION)
  : DEVICE_EXTENSION :=
  set_I2CContext (set_I2cResHubId id (I2CContext d)) d.

(** The loop over the translated resources (lines 329-344), entered with
    the current value of [status]. *)
Fixpoint scan_resources
  (resources : list CM_PARTIAL_RESOURCE_DESCRIPTOR) (status : NTSTATUS)
  : M NTSTATUS :=
  match resources with
  | [] => ret status
  | res :: rest =>
      if is_I2C_connection res then
        modify_dev (store_I2cResHubId (connection_id res)) ;;
        scan_resources rest STATUS_SUCCESS
      else
        scan_resources rest status
  end.

Definition OnPrepareHardware
  (FxResourcesTranslated : list CM_PARTIAL_RESOURCE_DESCRIPTOR) : M NTSTATUS :=
  status <- scan_resources FxResourcesTranslated STATUS_INSUFFICIENT_RESOURCES ;;
  if negb (NT_SUCCESS status) then
    Trace ErrorFindingConnection status ;; ret status
  else
  status <- call_SpbTargetInitialize ;;
  if negb (NT_SUCCESS status) then
    Trace ErrorSpbInitialization status ;; ret status
  else
  status <- call_touch CallTchAllocateContext TchAllocateContext ;;
  if negb (NT_SUCCESS status) then
    Trace ErrorAllocatingTouchContext status ;; ret status
  else
  status <- call_touch CallTchRegistryGetControllerSettings
              TchRegistryGetControllerSettings ;;
  if negb (NT_SUCCESS status) then
    Trace ErrorRetrievingControllerSettings status ;; ret status
  else
  status <- call_touch_spb CallTchStartDevice TchStartDevice ;;
  if negb (NT_SUCCESS status) then
    Trace ErrorStartingTouchDevice status ;; ret status
  else
    ret status.

(** *** OnReleaseHardware *)

Definition OnReleaseHardware : M NTSTATUS :=
  status <- call_touch_spb CallTchStopDevice TchStopDevice ;;
  when (negb (NT_SUCCESS status)) (Trace ErrorStoppingDevice status) ;;
  status <- call_touch CallTchFreeContext TchFreeContext ;;
  when (negb (NT_SUCCESS status)) (Trace ErrorFreeingTouchContext status) ;;
  call_SpbTargetDeinitialize ;;
  ret status.

End Device.

(** ** What a servicing pass is expected to leave behind

    These functions describe the outcome of the loop of [OnInterruptIsr]
    in closed form; the theorems below relate them to the code. *)

Section Outcome.
Context {P : Platform}.

(** The request as the driver completes it after copying a report. *)
Definition filled (request : WDFREQUEST) (report : HID_INPUT_REPORT)
  : WDFREQUEST :=
  {| RequestId := RequestId request;
     OutputBufferLength := OutputBufferLength request;
     OutputBuffer := Some report;
     Information := sizeof_HID_INPUT_REPORT |}.

Definition too_small (request : WDFREQUEST) : bool :=
  OutputBufferLength request <? sizeof_HID_INPUT_REPORT.

(** How a popped request is completed when it is paired with [report]. *)
Definition completion_of (request : WDFREQUEST) (report : HID_INPUT_REPORT)
  : WDFREQUEST * NTSTATUS :=
  if too_small request
  then (request, STATUS_BUFFER_TOO_SMALL)
  else (filled request report, STATUS_SUCCESS).

Definition completions_of
  (queue : WDFQUEUE) (reports : list HID_INPUT_REPORT)
  : list (WDFREQUEST * NTSTATUS) :=
  map (fun p => completion_of (fst p) (snd p)) (combine queue reports).

(** The events of one iteration that popped [request] for report [i]. *)
Definition delivery_events
  (i : Z) (request : WDFREQUEST) (report : HID_INPUT_REPORT) : list Event :=
  if too_small request
  then [EvTrace ErrorRetrievingOutputBuffer STATUS_BUFFER_TOO_SMALL;
        EvComplete request STATUS_BUFFER_TOO_SMALL]
  else [EvDbgPrint (DbgCopy i);
        EvComplete (filled request report) STATUS_SUCCESS].

(** The events of the loop started at index [i] with [queue] pending. *)
Fixpoint pass_events
  (i : Z) (queue : WDFQUEUE) (reports : list HID_INPUT_REPORT) : list Event :=
  match reports with
  | [] => []
  | report :: rest =>
      match queue with
      | [] =>
          EvTrace NoRequestPending STATUS_NO_MORE_ENTRIES
            :: pass_events (i + 1) [] rest
      | request :: queue' =>
          delivery_events i request report ++ pass_events (i + 1) queue' rest
      end
  end.

(** A completion that handed a report to its request. *)
Definition carries_report (c : WDFREQUEST * NTSTATUS) : bool :=
  NT_SUCCESS (snd c)
  && match OutputBuffer (fst c) with Some _ => true | None => false end.

(** The last descriptor of a resource list that [OnPrepareHardware]
    takes for the I2C connection. *)
Definition last_I2C_connection
  (resources : list CM_PARTIAL_RESOURCE_DESCRIPTOR)
  : option CM_PARTIAL_RESOURCE_DESCRIPTOR :=
  hd_error (rev (filter is_I2C_connection resources)).

End Outcome.

(** ** A simulated controller and transport

    A concrete platform on which the callbacks can be run: reports are
    8-byte words, the controller answers every call with the status it
    holds and reports the words it has ready, and the transport remembers
    whether it is initialised. *)

Module Demo.

Record Controller : Type := {
  answer : NTSTATUS;
  ready : list Z
}.

Definition platform : Platform :=
  {| HID_INPUT_REPORT := Z;
     sizeof_HID_INPUT_REPORT := 8;
     sizeof_HID_INPUT_REPORT_pos := eq_refl;
     TOUCH_CONTEXT := Controller;
     SPB_TARGET := bool |}.

#[local] Existing Instance platform.

Definition collaborators : Collaborators :=
  {| TchServiceInterrupts := fun tc spb _ => (answer tc, ready tc, tc, spb);
     TchWakeDevice := fun tc spb => (answer tc, tc, spb);
     TchStandbyDevice := fun tc spb => (answer tc, tc, spb);
     TchStartDevice := fun tc spb => (answer tc, tc, spb);
     TchStopDevice := fun tc spb => (answer tc, tc, spb);
     TchAllocateContext := fun tc => (STATUS_SUCCESS, tc);
     TchRegistryGetControllerSettings := fun tc => (STATUS_SUCCESS, tc);
     TchFreeContext := fun tc => (answer tc, tc);
     SpbTargetInitialize := fun spb =>
       (STATUS_SUCCESS,
        {| I2cResHubId := I2cResHubId spb; SpbTarget := true |});
     SpbTargetDeinitialize := fun spb =>
       {| I2cResHubId := I2cResHubId spb; SpbTarget := false |};
     TchCompleteIdleIrp := fun d => (d, []) |}.

Definition request (id capacity : Z) : WDFREQUEST :=
  {| RequestId := id;
     OutputBufferLength := capacity;
     OutputBuffer := None;
     Information := 0 |}.

(** A device whose controller answers [status] with [reports] ready, with
    [queue] pending and nothing logged yet. *)
Definition world
  (status : NTSTATUS) (reports : list Z) (diagnostic : bool) (queue : WDFQUEUE)
  : World :=
  {| dev :=
       {| TouchContext := {| answer := status; ready := reports |};
          I2CContext :=
            {| I2cResHubId := {| LowPart := 0; HighPart := 0 |};
               SpbTarget := false |};
          InputMode := 0;
          DiagnosticMode := diagnostic;
          PingPongQueue := queue;
          ServiceInterruptsAfterD0Entry := false |};
     log := [] |}.

Definition STATUS_UNSUCCESSFUL : NTSTATUS := to_LONG 0xC0000001.

(** Diagnostic mode, with reports ready and a request pending. *)
Definition diagnostic_world : World :=
  world STATUS_SUCCESS [11; 22] true [request 1 8].

(** The controller fails while two requests are pending. *)
Definition failing_world : World :=
  world STATUS_UNSUCCESSFUL [11; 22] false [request 1 8; request 2 8].

(** Three reports for four pending requests, the second with a buffer of
    four bytes only. *)
Definition busy_world : World :=
  world STATUS_SUCCESS [11; 22; 33] false
    [request 1 8; request 2 4; request 3 16; request 4 8].

(** One report for one pending request with a buffer of four bytes. *)
Definition short_world : World :=
  world STATUS_SUCCESS [11] false [request 1 4].

(** Three reports for one pending request. *)
Definition flooded_world : World :=
  world STATUS_SUCCESS [11; 22; 33] false [request 1 8].

Definition descriptor (type class_ kind low high : Z)
  : CM_PARTIAL_RESOURCE_DESCRIPTOR :=
  {| ResType := type;
     Connection_Class := class_;
     Connection_Type := kind;
     Connection_IdLowPart := low;
     Connection_IdHighPart := high |}.

(** An interrupt descriptor (type 2), a GPIO connection and two I2C
    connections. *)
Definition interrupt_res := descriptor 2 0 0 0 0.
Definition gpio_res := descriptor 132 1 2 7 0.
Definition i2c_res_a := descriptor 132 2 1 1 0.
Definition i2c_res_b := descriptor 132 2 1 2 0x80000000.

End Demo.

(** ** Further views of the log, and the steps of binding and release *)

(** The events of [after] that follow those of [before]. *)
Definition added {A : Type} (before after : list A) : list A :=
  skipn (length before) after.

Definition traces {P : Platform} (l : list Event)
  : list (TraceSite * NTSTATUS) :=
  flat_map (fun e => match e with
                     | EvTrace site status => [(site, status)]
                     | _ => []
                     end) l.

(** The collaborator calls of [OnPrepareHardware] (lines 360, 376, 392,
    409) and of [OnReleaseHardware] (lines 459, 470, 481), in program
    order. *)
Definition bind_steps : list Callee :=
  [CallSpbTargetInitialize; CallTchAllocateContext;
   CallTchRegistryGetControllerSettings; CallTchStartDevice].


(** The [Trace] statement that [OnPrepareHardware] reaches when it leaves
    after [n] collaborator calls with a failure status. *)
Definition bind_error_site (n : nat) : TraceSite :=
  match n with
  | 0%nat => ErrorFindingConnection
  | 1%nat => ErrorSpbInitialization
  | 2%nat => ErrorAllocatingTouchContext
  | 3%nat => ErrorRetrievingControllerSettings
  | _ => ErrorStartingTouchDevice
  end.

(** ** A scripted controller and transport

    A second concrete platform: the controller and the transport each
    hold the list of statuses they will answer with, one per call, and
    answer [STATUS_SUCCESS] once the list is used up. *)

Module Script.

Definition platform : Platform :=
  {| HID_INPUT_REPORT := Z;
     sizeof_HID_INPUT_REPORT := 8;
     sizeof_HID_INPUT_REPORT_pos := eq_refl;
     TOUCH_CONTEXT := list NTSTATUS;
     SPB_TARGET := list NTSTATUS |}.

#[local] Existing Instance platform.

Definition answer (script : list NTSTATUS) : NTSTATUS :=
  hd STATUS_SUCCESS script.

Definition collaborators : Collaborators :=
  {| TchServiceInterrupts := fun tc spb _ => (answer tc, [], tl tc, spb);
     TchWakeDevice := fun tc spb => (answer tc, tl tc, spb);
     TchStandbyDevice := fun tc spb => (answer tc, tl tc, spb);
     TchStartDevice := fun tc spb => (answer tc, tl tc, spb);
     TchStopDevice := fun tc spb => (answer tc, tl tc, spb);
     TchAllocateContext := fun tc => (answer tc, tl tc);
     TchRegistryGetControllerSettings := fun tc => (answer tc, tl tc);
     TchFreeContext := fun tc => (answer tc, tl tc);
     SpbTargetInitialize := fun spb =>
       (answer (SpbTarget spb),
        {| I2cResHubId := I2cResHubId spb; SpbTarget := tl (SpbTarget spb) |});
     SpbTargetDeinitialize := fun spb => spb;
     TchCompleteIdleIrp := fun d => (d, []) |}.

(** A device whose controller and transport follow the given scripts,
    with [queue] pending and [ServiceInterruptsAfterD0Entry] set. *)
Definition world
  (controller transport : list NTSTATUS) (queue : WDFQUEUE) : World :=
  {| dev :=
       {| TouchContext := controller;
          I2CContext :=
            {| I2cResHubId := {| LowPart := 0; HighPart := 0 |};
               SpbTarget := transport |};
          InputMode := 0;
          DiagnosticMode := false;
          PingPongQueue := queue;
          ServiceInterruptsAfterD0Entry := true |};
     log := [] |}.

Definition request (id capacity : Z) : WDFREQUEST :=
  {| RequestId := id;
     OutputBufferLength := capacity;
     OutputBuffer := None;
     Information := 0 |}.

Definition STATUS_IO_TIMEOUT : NTSTATUS := to_LONG 0xC00000B5.
Definition STATUS_DEVICE_NOT_READY : NTSTATUS := to_LONG 0xC00000A3.

End Script.

(** * Properties *)

(** ** Status codes *)

Section StatusFacts.

Lemma NT_SUCCESS_STATUS_SUCCESS : NT_SUCCESS STATUS_SUCCESS = true.
Proof. reflexivity. Qed.

Lemma NT_SUCCESS_STATUS_NO_MORE_ENTRIES :
  NT_SUCCESS STATUS_NO_MORE_ENTRIES = false.
Proof. reflexivity. Qed.

Lemma NT_SUCCESS_STATUS_BUFFER_TOO_SMALL :
  NT_SUCCESS STATUS_BUFFER_TOO_SMALL = false.
Proof. reflexivity. Qed.

Lemma NT_SUCCESS_STATUS_INSUFFICIENT_RESOURCES :
  NT_SUCCESS STATUS_INSUFFICIENT_RESOURCES = false.
Proof. reflexivity. Qed.

Lemma to_LONG_range (x : Z) : - 2 ^ 31 <= to_LONG x < 2 ^ 31.
Proof.
  unfold to_LONG; cbv zeta.
  pose proof (Z.mod_pos_bound x (2 ^ 32) ltac:(lia)) as Hm.
  destruct (x mod 2 ^ 32 <? 2 ^ 31) eqn:E.
  - apply Z.ltb_lt in E; lia.
  - apply Z.ltb_ge in E; lia.
Qed.

Lemma to_LONG_mod (x : Z) : to_LONG x mod 2 ^ 32 = x mod 2 ^ 32.
Proof.
  unfold to_LONG; cbv zeta.
  destruct (x mod 2 ^ 32 <? 2 ^ 31).
  - apply Z.mod_mod; lia.
  - rewrite <- (Z.mod_add _ 1 (2 ^ 32)) by lia.
    replace (x mod 2 ^ 32 - 2 ^ 32 + 1 * 2 ^ 32) with (x mod 2 ^ 32) by lia.
    apply Z.mod_mod; lia.
Qed.

End StatusFacts.

(** ** The log and its projections *)

Section LogFacts.
Context {P : Platform}.

Lemma calls_app (l1 l2 : list Event) : calls (l1 ++ l2) = calls l1 ++ calls l2.
Proof. unfold calls. apply flat_map_app. Qed.

Lemma completions_app (l1 l2 : list Event) :
  completions (l1 ++ l2) = completions l1 ++ completions l2.
Proof. unfold completions. apply flat_map_app. Qed.

Lemma dropped_app (l1 l2 : list Event) :
  dropped (l1 ++ l2) = (dropped l1 + dropped l2)%nat.
Proof. unfold dropped. rewrite filter_app. apply length_app. Qed.

Lemma set_PingPongQueue_same (d : DEVICE_EXTENSION) :
  set_PingPongQueue (PingPongQueue d) d = d.
Proof. destruct d; reflexivity. Qed.

Lemma too_small_iff (request : WDFREQUEST) :
  (OutputBufferLength request =? 0)
  || (OutputBufferLength request <? sizeof_HID_INPUT_REPORT)
  = too_small request.
Proof.
  unfold too_small.
  pose proof sizeof_HID_INPUT_REPORT_pos as Hpos.
  destruct (OutputBufferLength request =? 0) eqn:E0; simpl; [|reflexivity].
  apply Z.eqb_eq in E0. symmetry. apply Z.ltb_lt. lia.
Qed.

Lemma completions_delivery_events i request report :
  completions (delivery_events i request report)
  = [completion_of request report].
Proof.
  unfold delivery_events, completion_of.
  destruct (too_small request); reflexivity.
Qed.

Lemma completions_pass_events reports :
  forall i queue,
    completions (pass_events i queue reports) = completions_of queue reports.
Proof.
  induction reports as [|report rest IH]; intros i queue.
  - destruct queue; reflexivity.
  - destruct queue as [|request queue']; simpl.
    + rewrite IH. reflexivity.
    + rewrite completions_app, completions_delivery_events, IH. reflexivity.
Qed.

Lemma dropped_pass_events reports :
  forall i queue,
    dropped (pass_events i queue reports) = (length reports - length queue)%nat.
Proof.
  induction reports as [|report rest IH]; intros i queue.
  - reflexivity.
  - destruct queue as [|request queue']; simpl.
    + change (S (dropped (pass_events (i + 1) [] rest)) = S (length rest)).
      rewrite IH. simpl. lia.
    + rewrite dropped_app, IH.
      unfold delivery_events. destruct (too_small request); reflexivity.
Qed.


Lemma completions_of_length queue reports :
  length (completions_of queue reports)
  = Nat.min (length reports) (length queue).
Proof.
  unfold completions_of.
  rewrite length_map, length_combine. apply Nat.min_comm.
Qed.

Lemma completions_of_nth queue reports i request report :
  nth_error queue i = Some request ->
  nth_error reports i = Some report ->
  nth_error (completions_of queue reports) i
  = Some (completion_of request report).
Proof.
  revert queue reports.
  induction i as [|i IH]; intros [|q queue] [|r reports] Hq Hr;
    simpl in *; try discriminate.
  - inversion Hq; inversion Hr; reflexivity.
  - unfold completions_of in IH. apply IH; assumption.
Qed.

Lemma completions_of_app q1 :
  forall q2 r1 r2,
    length q1 = length r1 ->
    completions_of (q1 ++ q2) (r1 ++ r2)
    = completions_of q1 r1 ++ completions_of q2 r2.
Proof.
  induction q1 as [|q q1 IH]; intros q2 [|r r1] r2 Hlen;
    simpl in Hlen; try discriminate.
  - reflexivity.
  - injection Hlen as Hlen.
    unfold completions_of in *. simpl. f_equal. apply IH. assumption.
Qed.

End LogFacts.

(** ** The interrupt service routine *)

Section InterruptFacts.
Context {P : Platform} {C : Collaborators}.

Lemma WdfRequestRetrieveOutputBuffer_too_small (request : WDFREQUEST) :
  too_small request = true ->
  WdfRequestRetrieveOutputBuffer request sizeof_HID_INPUT_REPORT
  = Err STATUS_BUFFER_TOO_SMALL.
Proof.
  intros H. unfold WdfRequestRetrieveOutputBuffer.
  rewrite too_small_iff, H. reflexivity.
Qed.

Lemma WdfRequestRetrieveOutputBuffer_fits (request : WDFREQUEST) :
  too_small request = false ->
  WdfRequestRetrieveOutputBuffer request sizeof_HID_INPUT_REPORT
  = Ok (OutputBufferLength request).
Proof.
  intros H. unfold WdfRequestRetrieveOutputBuffer.
  rewrite too_small_iff, H. reflexivity.
Qed.

(** The two framework routines succeed exactly when they hand back a
    value: the [Err] and [Ok] branches of [service_report] are the two
    branches of the [NT_SUCCESS] tests of lines 122 and 142. *)
Lemma WdfIoQueueRetrieveNextRequest_status (queue : WDFQUEUE) :
  NT_SUCCESS (status_of (fst (WdfIoQueueRetrieveNextRequest queue)))
  = match fst (WdfIoQueueRetrieveNextRequest queue) with
    | Ok _ => true
    | Err _ => false
    end.
Proof. destruct queue; reflexivity. Qed.

Lemma WdfRequestRetrieveOutputBuffer_status (request : WDFREQUEST) size :
  NT_SUCCESS (status_of (WdfRequestRetrieveOutputBuffer request size))
  = match WdfRequestRetrieveOutputBuffer request size with
    | Ok _ => true
    | Err _ => false
    end.
Proof.
  unfold WdfRequestRetrieveOutputBuffer.
  destruct ((OutputBufferLength request =? 0)
            || (OutputBufferLength request <? size)); reflexivity.
Qed.

(** When the framework hands the buffer back it is long enough, so the
    length test of line 155 does not fire after a successful retrieval. *)
Lemma WdfRequestRetrieveOutputBuffer_length (request : WDFREQUEST) size len :
  WdfRequestRetrieveOutputBuffer request size = Ok len ->
  len = OutputBufferLength request /\ (len <? size) = false.
Proof.
  unfold WdfRequestRetrieveOutputBuffer.
  destruct (OutputBufferLength request =? 0); simpl; [discriminate|].
  destruct (OutputBufferLength request <? size) eqn:E; [discriminate|].
  intros H. inversion H. subst. split; [reflexivity | exact E].
Qed.

(** An iteration that finds the queue empty drops its report. *)
Lemma service_report_empty i report d l :
  PingPongQueue d = [] ->
  service_report i report {| dev := d; log := l |}
  = (tt, {| dev := set_PingPongQueue [] d;
            log := l ++ [EvTrace NoRequestPending STATUS_NO_MORE_ENTRIES] |}).
Proof.
  intros Hq. unfold service_report, bind, get_dev. simpl.
  rewrite Hq. reflexivity.
Qed.

(** An iteration that finds a request pops it and completes it. *)
Lemma service_report_pending i report request rest d l :
  PingPongQueue d = request :: rest ->
  service_report i report {| dev := d; log := l |}
  = (tt, {| dev := set_PingPongQueue rest d;
            log := l ++ delivery_events i request report |}).
Proof.
  intros Hq. unfold service_report, bind, get_dev. simpl.
  rewrite Hq. simpl. unfold delivery_events.
  destruct (too_small request) eqn:E.
  - rewrite (WdfRequestRetrieveOutputBuffer_too_small _ E).
    unfold Trace, WdfRequestComplete, emit, bind. simpl.
    rewrite <- app_assoc. reflexivity.
  - rewrite (WdfRequestRetrieveOutputBuffer_fits _ E).
    unfold too_small in E. rewrite E.
    unfold DbgPrintEx, WdfRequestComplete, emit, bind. simpl.
    rewrite <- app_assoc. reflexivity.
Qed.

(** The whole loop: it pops as many requests as there are reports (or all
    of them), oldest first, and logs [pass_events]. *)
Lemma service_reports_run reports :
  forall i d l,
    service_reports i reports {| dev := d; log := l |}
    = (tt,
       {| dev := set_PingPongQueue
                   (skipn (length reports) (PingPongQueue d)) d;
          log := l ++ pass_events i (PingPongQueue d) reports |}).
Proof.
  induction reports as [|report rest IH]; intros i d l.
  - simpl. unfold ret. rewrite set_PingPongQueue_same, app_nil_r. reflexivity.
  - simpl. unfold bind at 1.
    destruct (PingPongQueue d) as [|request queue'] eqn:Hq.
    + rewrite (service_report_empty _ _ _ _ Hq), IH. simpl.
      rewrite <- app_assoc. simpl. rewrite skipn_nil. reflexivity.
    + rewrite (service_report_pending _ _ _ _ _ _ Hq), IH. simpl.
      rewrite <- app_assoc. reflexivity.
Qed.

Lemma OnInterruptIsr_body_success (w : World) status reports tc spb :
  DiagnosticMode (dev w) = false ->
  TchServiceInterrupts
    (TouchContext (dev w)) (I2CContext (dev w)) (InputMode (dev w))
  = (status, reports, tc, spb) ->
  NT_SUCCESS status = true ->
  OnInterruptIsr_body w
  = (tt,
     {| dev := set_PingPongQueue
                 (skipn (length reports) (PingPongQueue (dev w)))
                 (set_I2CContext spb (set_TouchContext tc (dev w)));
        log := log w
               ++ EvCall CallTchServiceInterrupts
               :: EvDbgPrint (DbgReported (Z.of_nat (length reports)))
               :: pass_events 0 (PingPongQueue (dev w)) reports |}).
Proof.
  intros Hdiag Hsvc Hok.
  unfold OnInterruptIsr_body, bind, get_dev. rewrite Hdiag.
  unfold call_TchServiceInterrupts. cbv zeta. rewrite Hsvc, Hok. simpl.
  unfold DbgPrintEx, emit. rewrite service_reports_run. simpl.
  rewrite <- !app_assoc. reflexivity.
Qed.

Lemma OnInterruptIsr_body_failure (w : World) status reports tc spb :
  DiagnosticMode (dev w) = false ->
  TchServiceInterrupts
    (TouchContext (dev w)) (I2CContext (dev w)) (InputMode (dev w))
  = (status, reports, tc, spb) ->
  NT_SUCCESS status = false ->
  OnInterruptIsr_body w
  = (tt,
     {| dev := set_I2CContext spb (set_TouchContext tc (dev w));
        log := log w ++ [EvCall CallTchServiceInterrupts] |}).
Proof.
  intros Hdiag Hsvc Hfail.
  unfold OnInterruptIsr_body, bind, get_dev. rewrite Hdiag.
  unfold call_TchServiceInterrupts. cbv zeta. rewrite Hsvc, Hfail.
  reflexivity.
Qed.

Lemma OnInterruptIsr_success (w : World) status reports tc spb :
  DiagnosticMode (dev w) = false ->
  TchServiceInterrupts
    (TouchContext (dev w)) (I2CContext (dev w)) (InputMode (dev w))
  = (status, reports, tc, spb) ->
  NT_SUCCESS status = true ->
  OnInterruptIsr w
  = (true,
     {| dev := set_PingPongQueue
                 (skipn (length reports) (PingPongQueue (dev w)))
                 (set_I2CContext spb (set_TouchContext tc (dev w)));
        log := log w
               ++ EvCall CallTchServiceInterrupts
               :: EvDbgPrint (DbgReported (Z.of_nat (length reports)))
               :: pass_events 0 (PingPongQueue (dev w)) reports |}).
Proof.
  intros Hdiag Hsvc Hok. unfold OnInterruptIsr, bind.
  rewrite (OnInterruptIsr_body_success w _ _ _ _ Hdiag Hsvc Hok).
  reflexivity.
Qed.

Lemma completions_service_log l n queue reports :
  completions
    (l ++ EvCall CallTchServiceInterrupts
       :: EvDbgPrint (DbgReported n) :: pass_events 0 queue reports)
  = completions l ++ completions_of queue reports.
Proof.
  rewrite completions_app. f_equal.
  change (completions (pass_events 0 queue reports)
          = completions_of queue reports).
  apply completions_pass_events.
Qed.

Lemma dropped_service_log l n queue reports :
  dropped
    (l ++ EvCall CallTchServiceInterrupts
       :: EvDbgPrint (DbgReported n) :: pass_events 0 queue reports)
  = (dropped l + (length reports - length queue))%nat.
Proof.
  rewrite dropped_app.
  change (dropped (EvCall CallTchServiceInterrupts
                   :: EvDbgPrint (DbgReported n)
                   :: pass_events 0 queue reports))
    with (dropped (pass_events 0 queue reports)).
  rewrite dropped_pass_events. reflexivity.
Qed.

(** When every paired request has room for a report, every completion of
    the pass carries one. *)
Lemma completions_of_all_fit queue :
  forall reports,
    forallb (fun request => negb (too_small request)) queue = true ->
    forallb carries_report (completions_of queue reports) = true.
Proof.
  induction queue as [|request queue IH]; intros [|report reports] Hfit;
    try reflexivity.
  simpl in Hfit. apply andb_true_iff in Hfit as [Hr Hq].
  unfold completions_of in *. simpl. rewrite IH by assumption.
  unfold completion_of. apply negb_true_iff in Hr. rewrite Hr. reflexivity.
Qed.

End InterruptFacts.

(** C4: [OnInterruptIsr] reports the interrupt as handled ([TRUE]) on every
    invocation, whatever the device context, the report source, the queue
    and the requests' buffers are: diagnostic mode, a failing report
    source, an empty queue, a short buffer and full success all end in the
    same [return TRUE]. *)
Theorem OnInterruptIsr_always_handled
  {P : Platform} {C : Collaborators} (w : World) :
  fst (OnInterruptIsr w) = true.
Proof.
  unfold OnInterruptIsr, bind.
  destruct (OnInterruptIsr_body w) as [[] w']. reflexivity.
Qed.

(** C8: with [DiagnosticMode] set, [OnInterruptIsr] returns handled and
    leaves the world as it found it: the report source is not called, no
    request is popped or completed, no field of the device context
    changes and nothing is logged. *)
Theorem OnInterruptIsr_diagnostic_mode
  {P : Platform} {C : Collaborators} (w : World) :
  DiagnosticMode (dev w) = true ->
  OnInterruptIsr w = (true, w).
Proof.
  intros Hdiag.
  unfold OnInterruptIsr, OnInterruptIsr_body, bind, get_dev.
  rewrite Hdiag. reflexivity.
Qed.

Lemma OnInterruptIsr_diagnostic_mode_witness :
  OnInterruptIsr (C := Demo.collaborators) Demo.diagnostic_world
  = (true, Demo.diagnostic_world).
Proof.
  apply (OnInterruptIsr_diagnostic_mode (C := Demo.collaborators)
           Demo.diagnostic_world).
  reflexivity.
Defined.

(** C2: when [TchServiceInterrupts] returns a failure status, the pass
    ends there: the interrupt is reported as handled, the only event is
    the call itself, the queue keeps every pending request, no request is
    completed, and the outcome does not depend on the report buffer. *)
Theorem OnInterruptIsr_report_source_failure
  {P : Platform} {C : Collaborators} (w : World) status reports tc spb :
  DiagnosticMode (dev w) = false ->
  TchServiceInterrupts
    (TouchContext (dev w)) (I2CContext (dev w)) (InputMode (dev w))
  = (status, reports, tc, spb) ->
  NT_SUCCESS status = false ->
  OnInterruptIsr w
  = (true,
     {| dev := set_I2CContext spb (set_TouchContext tc (dev w));
        log := log w ++ [EvCall CallTchServiceInterrupts] |})
  /\ PingPongQueue (dev (snd (OnInterruptIsr w))) = PingPongQueue (dev w)
  /\ completions (log (snd (OnInterruptIsr w))) = completions (log w)
  /\ dropped (log (snd (OnInterruptIsr w))) = dropped (log w).
Proof.
  intros Hdiag Hsvc Hfail.
  assert (Hrun : OnInterruptIsr w
    = (true,
       {| dev := set_I2CContext spb (set_TouchContext tc (dev w));
          log := log w ++ [EvCall CallTchServiceInterrupts] |})).
  { unfold OnInterruptIsr, bind.
    rewrite (OnInterruptIsr_body_failure w _ _ _ _ Hdiag Hsvc Hfail).
    reflexivity. }
  rewrite Hrun. simpl.
  rewrite completions_app, dropped_app. simpl.
  rewrite app_nil_r, Nat.add_0_r. repeat split.
Qed.

Lemma OnInterruptIsr_report_source_failure_witness :
  PingPongQueue
    (dev (snd (OnInterruptIsr (C := Demo.collaborators) Demo.failing_world)))
  = [Demo.request 1 8; Demo.request 2 8]
  /\ completions
       (log (snd (OnInterruptIsr (C := Demo.collaborators)
                    Demo.failing_world)))
     = [].
Proof.
  pose proof
    (OnInterruptIsr_report_source_failure (C := Demo.collaborators)
       Demo.failing_world Demo.STATUS_UNSUCCESSFUL [11; 22]
       (TouchContext (dev Demo.failing_world))
       (I2CContext (dev Demo.failing_world))
       eq_refl eq_refl eq_refl) as H.
  destruct H as (_ & Hqueue & Hdone & _).
  split; [exact Hqueue | exact Hdone].
Defined.

(** C1 (as amended): in a pass in which [TchServiceInterrupts] succeeds
    with N reports while M requests are pending, exactly min(N, M)
    requests are popped and completed, report i being paired with the
    i-th oldest pending request. A paired request whose buffer has room
    for a report is completed with success and that report's data; a
    paired request with a shorter buffer is completed with
    [STATUS_BUFFER_TOO_SMALL] and no data. max(0, M - N) requests remain
    pending, in their order, and max(0, N - M) reports are dropped: the
    device context afterwards holds nothing of them. *)
Theorem OnInterruptIsr_pairs_reports_with_requests
  {P : Platform} {C : Collaborators} (w : World) status reports tc spb :
  DiagnosticMode (dev w) = false ->
  TchServiceInterrupts
    (TouchContext (dev w)) (I2CContext (dev w)) (InputMode (dev w))
  = (status, reports, tc, spb) ->
  NT_SUCCESS status = true ->
  let queue := PingPongQueue (dev w) in
  let N := length reports in
  let M := length queue in
  let w' := snd (OnInterruptIsr w) in
  completions (log w') = completions (log w) ++ completions_of queue reports
  /\ length (completions_of queue reports) = Nat.min N M
  /\ (forall i request report,
        nth_error queue i = Some request ->
        nth_error reports i = Some report ->
        nth_error (completions_of queue reports) i
        = Some (if OutputBufferLength request <? sizeof_HID_INPUT_REPORT
                then (request, STATUS_BUFFER_TOO_SMALL)
                else (filled request report, STATUS_SUCCESS)))
  /\ dev w' = set_PingPongQueue (skipn N queue)
                (set_I2CContext spb (set_TouchContext tc (dev w)))
  /\ length (PingPongQueue (dev w')) = (M - N)%nat
  /\ dropped (log w') = (dropped (log w) + (N - M))%nat.
Proof.
  intros Hdiag Hsvc Hok queue N M w'.
  unfold w'. rewrite (OnInterruptIsr_success w _ _ _ _ Hdiag Hsvc Hok).
  cbn [snd dev log].
  rewrite completions_service_log, dropped_service_log.
  repeat split.
  - apply completions_of_length.
  - intros i request report Hq Hr.
    apply (completions_of_nth _ _ _ _ _ Hq Hr).
  - apply length_skipn.
Qed.

Lemma OnInterruptIsr_pairs_reports_with_requests_witness :
  completions
    (log (snd (OnInterruptIsr (C := Demo.collaborators) Demo.busy_world)))
  = [(filled (Demo.request 1 8) 11, STATUS_SUCCESS);
     (Demo.request 2 4, STATUS_BUFFER_TOO_SMALL);
     (filled (Demo.request 3 16) 33, STATUS_SUCCESS)]
  /\ PingPongQueue
       (dev (snd (OnInterruptIsr (C := Demo.collaborators) Demo.busy_world)))
     = [Demo.request 4 8]
  /\ dropped
       (log (snd (OnInterruptIsr (C := Demo.collaborators) Demo.busy_world)))
     = 0%nat.
Proof.
  pose proof
    (OnInterruptIsr_pairs_reports_with_requests (C := Demo.collaborators)
       Demo.busy_world STATUS_SUCCESS [11; 22; 33]
       (TouchContext (dev Demo.busy_world))
       (I2CContext (dev Demo.busy_world))
       eq_refl eq_refl eq_refl) as H.
  cbv zeta in H. destruct H as (Hdone & _ & _ & Hdev & _ & Hdrop).
  split; [exact Hdone | split].
  - rewrite Hdev. reflexivity.
  - exact Hdrop.
Defined.

(** C1 (as stated) fails: the report source succeeds with one report
    while one request is pending, so min(N, M) = 1, but the request's
    buffer is shorter than a report and it is completed with
    [STATUS_BUFFER_TOO_SMALL] and no data: no request is completed with
    report data. *)
Lemma OnInterruptIsr_short_buffer_gets_no_report :
  NT_SUCCESS (Demo.answer (TouchContext (dev Demo.short_world))) = true
  /\ completions
       (log (snd (OnInterruptIsr (C := Demo.collaborators) Demo.short_world)))
     = [(Demo.request 1 4, STATUS_BUFFER_TOO_SMALL)]
  /\ length
       (filter carries_report
          (completions
             (log (snd (OnInterruptIsr (C := Demo.collaborators)
                          Demo.short_world)))))
     <> Nat.min (length (Demo.ready (TouchContext (dev Demo.short_world))))
                (length (PingPongQueue (dev Demo.short_world))).
Proof.
  vm_compute. repeat split. discriminate.
Qed.

(** C3: a request with an output buffer shorter than one report, popped
    for some report of a successful pass, is completed with
    [STATUS_BUFFER_TOO_SMALL] as it was popped (its buffer and its
    [Information] untouched), after the requests before it were paired
    with the reports before it; the loop goes on and pairs the reports
    after it with the requests after it. *)
Theorem OnInterruptIsr_short_buffer_request
  {P : Platform} {C : Collaborators}
  (w : World) status tc spb q1 request q2 r1 report r2 :
  DiagnosticMode (dev w) = false ->
  TchServiceInterrupts
    (TouchContext (dev w)) (I2CContext (dev w)) (InputMode (dev w))
  = (status, r1 ++ report :: r2, tc, spb) ->
  NT_SUCCESS status = true ->
  PingPongQueue (dev w) = q1 ++ request :: q2 ->
  length q1 = length r1 ->
  OutputBufferLength request < sizeof_HID_INPUT_REPORT ->
  completions (log (snd (OnInterruptIsr w)))
  = completions (log w)
    ++ completions_of q1 r1
    ++ (request, STATUS_BUFFER_TOO_SMALL) :: completions_of q2 r2
  /\ PingPongQueue (dev (snd (OnInterruptIsr w))) = skipn (length r2) q2.
Proof.
  intros Hdiag Hsvc Hok Hq Hlen Hshort.
  rewrite (OnInterruptIsr_success w _ _ _ _ Hdiag Hsvc Hok).
  cbn [snd dev log]. rewrite completions_service_log, Hq. split.
  - f_equal.
    rewrite (completions_of_app q1 (request :: q2) r1 (report :: r2) Hlen).
    f_equal. unfold completions_of. simpl. f_equal.
    unfold completion_of, too_small.
    apply Z.ltb_lt in Hshort. rewrite Hshort. reflexivity.
  - simpl. rewrite length_app, skipn_app. simpl.
    rewrite skipn_all2 by lia.
    replace (length r1 + S (length r2) - length q1)%nat
      with (S (length r2)) by lia.
    reflexivity.
Qed.

Lemma OnInterruptIsr_short_buffer_request_witness :
  completions
    (log (snd (OnInterruptIsr (C := Demo.collaborators) Demo.busy_world)))
  = [] ++ completions_of [Demo.request 1 8] [11]
    ++ (Demo.request 2 4, STATUS_BUFFER_TOO_SMALL)
       :: completions_of [Demo.request 3 16; Demo.request 4 8] [33]
  /\ PingPongQueue
       (dev (snd (OnInterruptIsr (C := Demo.collaborators) Demo.busy_world)))
     = skipn 1 [Demo.request 3 16; Demo.request 4 8].
Proof.
  apply (OnInterruptIsr_short_buffer_request (C := Demo.collaborators)
           Demo.busy_world STATUS_SUCCESS
           (TouchContext (dev Demo.busy_world))
           (I2CContext (dev Demo.busy_world))
           [Demo.request 1 8] (Demo.request 2 4)
           [Demo.request 3 16; Demo.request 4 8] [11] 22 [33]);
    reflexivity.
Defined.

(** ** Power transitions *)

(** C5: [OnD0Entry] sets [ServiceInterruptsAfterD0Entry] on every call,
    whether [TchWakeDevice] succeeds or fails, and returns the status of
    [TchWakeDevice]. The flag is set in the context that is handed to
    [TchCompleteIdleIrp]; it is still set when [OnD0Entry] returns
    provided that routine, which receives the whole context, does not
    clear it. *)
Theorem OnD0Entry_sets_service_flag
  {P : Platform} {C : Collaborators} (w : World) :
  (forall d,
     ServiceInterruptsAfterD0Entry d = true ->
     ServiceInterruptsAfterD0Entry (fst (TchCompleteIdleIrp d)) = true) ->
  ServiceInterruptsAfterD0Entry (dev (snd (OnD0Entry w))) = true
  /\ fst (OnD0Entry w)
     = fst (fst (TchWakeDevice (TouchContext (dev w)) (I2CContext (dev w))))
  /\ exists d,
       ServiceInterruptsAfterD0Entry d = true
       /\ dev (snd (OnD0Entry w)) = fst (TchCompleteIdleIrp d).
Proof.
  intros Hidle.
  unfold OnD0Entry, bind, call_touch_spb, call_TchCompleteIdleIrp.
  cbv zeta.
  destruct (TchWakeDevice (TouchContext (dev w)) (I2CContext (dev w)))
    as [[status tc] spb].
  set (d := set_ServiceInterruptsAfterD0Entry true
              (set_I2CContext spb (set_TouchContext tc (dev w)))).
  assert (Hd : ServiceInterruptsAfterD0Entry d = true) by reflexivity.
  destruct (NT_SUCCESS status); simpl; fold d;
    pose proof (Hidle d Hd) as Hkeep;
    destruct (TchCompleteIdleIrp d) as [d' done] eqn:E; simpl in *;
    (split; [exact Hkeep | split; [reflexivity |]]);
    exists d; rewrite E; split; reflexivity.
Qed.

Lemma OnD0Entry_sets_service_flag_witness :
  ServiceInterruptsAfterD0Entry
    (dev (snd (OnD0Entry (C := Demo.collaborators) Demo.failing_world)))
  = true
  /\ fst (OnD0Entry (C := Demo.collaborators) Demo.failing_world)
     = Demo.STATUS_UNSUCCESSFUL.
Proof.
  pose proof
    (OnD0Entry_sets_service_flag (C := Demo.collaborators)
       Demo.failing_world (fun d Hd => Hd)) as H.
  destruct H as (Hflag & Hstatus & _).
  split; [exact Hflag | exact Hstatus].
Defined.

(** [OnD0Exit] returns the status of [TchStandbyDevice]. *)
Lemma OnD0Exit_status {P : Platform} {C : Collaborators} (w : World) :
  fst (OnD0Exit w)
  = fst (fst (TchStandbyDevice (TouchContext (dev w)) (I2CContext (dev w)))).
Proof.
  unfold OnD0Exit, bind, call_touch_spb. cbv zeta.
  destruct (TchStandbyDevice (TouchContext (dev w)) (I2CContext (dev w)))
    as [[status tc] spb].
  destruct (NT_SUCCESS status); reflexivity.
Qed.

(** ** Releasing the hardware *)

(** C7: every call of [OnReleaseHardware] runs the three teardown
    routines once each, in order, with no early return, whatever status
    the first two return: [TchStopDevice] is applied to the touch and
    transport contexts of the device, [TchFreeContext] to the touch
    context that [TchStopDevice] left, and [SpbTargetDeinitialize] to
    the transport context that [TchStopDevice] left; what they leave is
    stored in the device context. The log gains the three calls in that
    order, with an error trace after each of the first two that failed,
    and no other collaborator is called. *)
Theorem OnReleaseHardware_runs_every_step
  {P : Platform} {C : Collaborators} (w : World) :
  let stopped := TchStopDevice (TouchContext (dev w)) (I2CContext (dev w)) in
  let stop_status := fst (fst stopped) in
  let freed := TchFreeContext (snd (fst stopped)) in
  let free_status := fst freed in
  OnReleaseHardware w
  = (free_status,
     {| dev := set_I2CContext (SpbTargetDeinitialize (snd stopped))
                 (set_TouchContext (snd freed) (dev w));
        log := log w
               ++ EvCall CallTchStopDevice
               :: (if NT_SUCCESS stop_status then []
                   else [EvTrace ErrorStoppingDevice stop_status])
               ++ EvCall CallTchFreeContext
               :: (if NT_SUCCESS free_status then []
                   else [EvTrace ErrorFreeingTouchContext free_status])
               ++ [EvCall CallSpbTargetDeinitialize] |})
  /\ calls (log (snd (OnReleaseHardware w)))
     = calls (log w)
       ++ [CallTchStopDevice; CallTchFreeContext; CallSpbTargetDeinitialize].
Proof.
  cbv zeta.
  destruct (TchStopDevice (TouchContext (dev w)) (I2CContext (dev w)))
    as [[stop_status tc] spb] eqn:Hstop.
  cbn [fst snd].
  destruct (TchFreeContext tc) as [free_status tc'] eqn:Hfree.
  cbn [fst snd].
  unfold OnReleaseHardware, bind, call_touch_spb, call_touch,
    call_SpbTargetDeinitialize, when, Trace, emit, ret.
  cbv zeta. rewrite Hstop.
  destruct (NT_SUCCESS stop_status); simpl; rewrite Hfree;
    destruct (NT_SUCCESS free_status); simpl;
    (split;
     [ rewrite <- ?app_assoc; reflexivity
     | rewrite !calls_app; simpl; rewrite ?app_nil_r, <- ?app_assoc;
       reflexivity ]).
Qed.

(** C10: the status that [OnReleaseHardware] returns is the status that
    [TchFreeContext] returned for the touch context left by
    [TchStopDevice]. The status of [TchStopDevice] is overwritten, and
    [SpbTargetDeinitialize] does not take part in it. *)
Theorem OnReleaseHardware_returns_free_status
  {P : Platform} {C : Collaborators} (w : World) :
  fst (OnReleaseHardware w)
  = fst (TchFreeContext
           (snd (fst (TchStopDevice
                        (TouchContext (dev w)) (I2CContext (dev w)))))).
Proof.
  unfold OnReleaseHardware, bind, call_touch_spb, call_touch,
    call_SpbTargetDeinitialize, when, Trace, emit, ret.
  cbv zeta.
  destruct (TchStopDevice (TouchContext (dev w)) (I2CContext (dev w)))
    as [[stop_status tc] spb].
  destruct (NT_SUCCESS stop_status); simpl;
    destruct (TchFreeContext tc) as [free_status tc'];
    destruct (NT_SUCCESS free_status); reflexivity.
Qed.

(** ** Preparing the hardware *)

Section PrepareFacts.
Context {P : Platform} {C : Collaborators}.

Lemma store_I2cResHubId_twice id1 id2 (d : DEVICE_EXTENSION) :
  store_I2cResHubId id2 (store_I2cResHubId id1 d) = store_I2cResHubId id2 d.
Proof. reflexivity. Qed.

Lemma last_I2C_connection_cons res rest :
  last_I2C_connection (res :: rest)
  = match last_I2C_connection rest with
    | Some d => Some d
    | None => if is_I2C_connection res then Some res else None
    end.
Proof.
  unfold last_I2C_connection. simpl.
  destruct (is_I2C_connection res); [|destruct (hd_error _); reflexivity].
  simpl. destruct (rev (filter is_I2C_connection rest)); reflexivity.
Qed.

Lemma last_I2C_connection_is_I2C resources d :
  last_I2C_connection resources = Some d -> is_I2C_connection d = true.
Proof.
  unfold last_I2C_connection. intros H.
  assert (Hin : In d (filter is_I2C_connection resources)).
  { apply in_rev.
    destruct (rev (filter is_I2C_connection resources)); simpl in H;
      [discriminate | inversion H; left; reflexivity]. }
  apply filter_In in Hin. apply Hin.
Qed.

Lemma last_I2C_connection_none resources :
  existsb is_I2C_connection resources = false ->
  last_I2C_connection resources = None.
Proof.
  induction resources as [|res rest IH]; intros H; [reflexivity|].
  simpl in H. apply orb_false_iff in H as [Hres Hrest].
  rewrite last_I2C_connection_cons, (IH Hrest), Hres. reflexivity.
Qed.

(** The scan leaves the id of the last matching descriptor and
    [STATUS_SUCCESS], or changes nothing when no descriptor matches. *)
Lemma scan_resources_run resources :
  forall status d l,
    scan_resources resources status {| dev := d; log := l |}
    = match last_I2C_connection resources with
      | Some res =>
          (STATUS_SUCCESS,
           {| dev := store_I2cResHubId (connection_id res) d; log := l |})
      | None => (status, {| dev := d; log := l |})
      end.
Proof.
  induction resources as [|res rest IH]; intros status d l.
  - reflexivity.
  - rewrite last_I2C_connection_cons. simpl.
    destruct (is_I2C_connection res).
    + unfold bind, modify_dev. simpl. rewrite IH.
      destruct (last_I2C_connection rest); reflexivity.
    + rewrite IH. destruct (last_I2C_connection rest); reflexivity.
Qed.

(** The stored [LARGE_INTEGER] holds the descriptor's 64-bit connection
    id: the high [ULONG] in bits 32-63 and the low [ULONG] in bits 0-31. *)
Lemma connection_id_QuadBits (res : CM_PARTIAL_RESOURCE_DESCRIPTOR) :
  0 <= Connection_IdLowPart res < 2 ^ 32 ->
  0 <= Connection_IdHighPart res < 2 ^ 32 ->
  QuadBits (connection_id res)
  = Connection_IdHighPart res * 2 ^ 32 + Connection_IdLowPart res.
Proof.
  intros Hlow Hhigh. unfold QuadBits, connection_id.
  cbn [LowPart HighPart]. rewrite to_LONG_mod.
  rewrite (Z.mod_small (Connection_IdHighPart res)) by assumption.
  rewrite (Z.mod_small (Connection_IdLowPart res)) by assumption.
  assert (Hdisjoint :
    Z.land (Z.shiftl (Connection_IdHighPart res) 32)
           (Connection_IdLowPart res) = 0).
  { apply Z.bits_inj'. intros n Hn.
    rewrite Z.land_spec, Z.bits_0.
    destruct (Z.ltb_spec n 32) as [Hlt | Hge].
    - rewrite Z.shiftl_spec_low by assumption. reflexivity.
    - rewrite <- (Z.mod_small (Connection_IdLowPart res) (2 ^ 32))
        by assumption.
      rewrite Z.mod_pow2_bits_high by lia. apply andb_false_r. }
  rewrite <- Z.lxor_lor by assumption.
  rewrite <- Z.add_nocarry_lxor by assumption.
  rewrite Z.shiftl_mul_pow2 by lia. reflexivity.
Qed.

Lemma scan_resources_single res d l :
  is_I2C_connection res = true ->
  scan_resources [res] STATUS_INSUFFICIENT_RESOURCES {| dev := d; log := l |}
  = (STATUS_SUCCESS,
     {| dev := store_I2cResHubId (connection_id res) d; log := l |}).
Proof.
  intros Hres. simpl. rewrite Hres. reflexivity.
Qed.

End PrepareFacts.

(** C6: when no descriptor of the translated resource list is a serial
    I2C connection, [OnPrepareHardware] returns
    [STATUS_INSUFFICIENT_RESOURCES]; it only logs the error: it calls
    neither [SpbTargetInitialize] nor any later step, and the device
    context is as it was. *)
Theorem OnPrepareHardware_without_I2C_connection
  {P : Platform} {C : Collaborators}
  (FxResourcesTranslated : list CM_PARTIAL_RESOURCE_DESCRIPTOR) (w : World) :
  existsb is_I2C_connection FxResourcesTranslated = false ->
  OnPrepareHardware FxResourcesTranslated w
  = (STATUS_INSUFFICIENT_RESOURCES,
     {| dev := dev w;
        log := log w
               ++ [EvTrace ErrorFindingConnection
                     STATUS_INSUFFICIENT_RESOURCES] |})
  /\ calls (log (snd (OnPrepareHardware FxResourcesTranslated w)))
     = calls (log w).
Proof.
  intros Hnone.
  assert (Hrun : OnPrepareHardware FxResourcesTranslated w
    = (STATUS_INSUFFICIENT_RESOURCES,
       {| dev := dev w;
          log := log w
                 ++ [EvTrace ErrorFindingConnection
                       STATUS_INSUFFICIENT_RESOURCES] |})).
  { destruct w as [d l]. unfold OnPrepareHardware, bind.
    rewrite scan_resources_run, (last_I2C_connection_none _ Hnone).
    reflexivity. }
  rewrite Hrun. split; [reflexivity|].
  simpl. rewrite calls_app. simpl. apply app_nil_r.
Qed.

Lemma OnPrepareHardware_without_I2C_connection_witness :
  OnPrepareHardware (C := Demo.collaborators)
    [Demo.interrupt_res; Demo.gpio_res] Demo.failing_world
  = (STATUS_INSUFFICIENT_RESOURCES,
     {| dev := dev Demo.failing_world;
        log := log Demo.failing_world
               ++ [EvTrace ErrorFindingConnection
                     STATUS_INSUFFICIENT_RESOURCES] |})
  /\ calls
       (log (snd (OnPrepareHardware (C := Demo.collaborators)
                    [Demo.interrupt_res; Demo.gpio_res] Demo.failing_world)))
     = calls (log Demo.failing_world).
Proof.
  apply (OnPrepareHardware_without_I2C_connection (C := Demo.collaborators)
           [Demo.interrupt_res; Demo.gpio_res] Demo.failing_world).
  reflexivity.
Defined.

(** C9: when [d] is the last serial I2C connection descriptor of the
    translated resource list (in particular when several descriptors
    match), the scan stores the connection id of [d] and leaves
    [STATUS_SUCCESS]; [OnPrepareHardware] then behaves exactly as it does
    on the list that holds [d] alone, so the other matching descriptors
    change neither its status nor its effects. The id of [d] is still in
    the device context when [OnPrepareHardware] returns, provided
    [SpbTargetInitialize] and [TchStartDevice], which receive a pointer
    to the transport context, do not overwrite it. *)
Theorem OnPrepareHardware_last_I2C_connection_wins
  {P : Platform} {C : Collaborators}
  (FxResourcesTranslated : list CM_PARTIAL_RESOURCE_DESCRIPTOR)
  (d : CM_PARTIAL_RESOURCE_DESCRIPTOR) (w : World) :
  last_I2C_connection FxResourcesTranslated = Some d ->
  (forall spb, I2cResHubId (snd (SpbTargetInitialize spb)) = I2cResHubId spb) ->
  (forall tc spb, I2cResHubId (snd (TchStartDevice tc spb)) = I2cResHubId spb) ->
  scan_resources FxResourcesTranslated STATUS_INSUFFICIENT_RESOURCES w
  = (STATUS_SUCCESS,
     {| dev := store_I2cResHubId (connection_id d) (dev w); log := log w |})
  /\ OnPrepareHardware FxResourcesTranslated w = OnPrepareHardware [d] w
  /\ I2cResHubId
       (I2CContext (dev (snd (OnPrepareHardware FxResourcesTranslated w))))
     = {| LowPart := Connection_IdLowPart d;
          HighPart := to_LONG (Connection_IdHighPart d) |}.
Proof.
  intros Hlast Hinit Hstart.
  pose proof (last_I2C_connection_is_I2C _ _ Hlast) as Hd.
  destruct w as [d0 l]. cbn [dev log].
  split; [|split].
  - rewrite scan_resources_run, Hlast. reflexivity.
  - unfold OnPrepareHardware, bind.
    rewrite scan_resources_run, Hlast, (scan_resources_single _ _ _ Hd).
    reflexivity.
  - unfold OnPrepareHardware, bind.
    rewrite scan_resources_run, Hlast.
    unfold call_SpbTargetInitialize, call_touch, call_touch_spb,
      Trace, emit, ret.
    cbv zeta. simpl.
    repeat
      (simpl;
       match goal with
       | |- context [SpbTargetInitialize ?x] =>
           pose proof (Hinit x);
           destruct (SpbTargetInitialize x) as [? ?]
       | |- context [TchStartDevice ?a ?b] =>
           pose proof (Hstart a b);
           destruct (TchStartDevice a b) as [[? ?] ?]
       | |- context [TchAllocateContext ?x] =>
           destruct (TchAllocateContext x) as [? ?]
       | |- context [TchRegistryGetControllerSettings ?x] =>
           destruct (TchRegistryGetControllerSettings x) as [? ?]
       | |- context [NT_SUCCESS ?s] => destruct (NT_SUCCESS s)
       end);
      simpl in *; unfold connection_id in *; congruence.
Qed.

Lemma OnPrepareHardware_last_I2C_connection_wins_witness :
  OnPrepareHardware (C := Demo.collaborators)
    [Demo.i2c_res_a; Demo.interrupt_res; Demo.i2c_res_b; Demo.gpio_res]
    Demo.diagnostic_world
  = OnPrepareHardware (C := Demo.collaborators)
      [Demo.i2c_res_b] Demo.diagnostic_world
  /\ I2cResHubId
       (I2CContext
          (dev (snd (OnPrepareHardware (C := Demo.collaborators)
                       [Demo.i2c_res_a; Demo.interrupt_res; Demo.i2c_res_b;
                        Demo.gpio_res]
                       Demo.diagnostic_world))))
     = {| LowPart := 2; HighPart := - 2 ^ 31 |}.
Proof.
  pose proof
    (OnPrepareHardware_last_I2C_connection_wins (C := Demo.collaborators)
       [Demo.i2c_res_a; Demo.interrupt_res; Demo.i2c_res_b; Demo.gpio_res]
       Demo.i2c_res_b Demo.diagnostic_world
       eq_refl (fun spb => eq_refl) (fun tc spb => eq_refl)) as H.
  destruct H as (_ & Hsame & Hid).
  split; [exact Hsame | exact Hid].
Defined.

(** ** Two passes run on the simulated device *)

(** Reports [11; 22; 33] with one request pending: the request gets the
    first report, the other two are dropped and the queue ends empty. *)
Example flooded_pass :
  OnInterruptIsr (C := Demo.collaborators) Demo.flooded_world
  = (true,
     {| dev := set_PingPongQueue [] (dev Demo.flooded_world);
        log := [EvCall CallTchServiceInterrupts;
                EvDbgPrint (DbgReported 3);
                EvDbgPrint (DbgCopy 0);
                EvComplete (filled (Demo.request 1 8) 11) STATUS_SUCCESS;
                EvTrace NoRequestPending STATUS_NO_MORE_ENTRIES;
                EvTrace NoRequestPending STATUS_NO_MORE_ENTRIES] |}).
Proof. reflexivity. Qed.

(** A successful pass without reports touches no request. *)
Example empty_pass :
  OnInterruptIsr (C := Demo.collaborators)
    (Demo.world STATUS_SUCCESS [] false [Demo.request 1 8])
  = (true,
     {| dev := dev (Demo.world STATUS_SUCCESS [] false [Demo.request 1 8]);
        log := [EvCall CallTchServiceInterrupts;
                EvDbgPrint (DbgReported 0)] |}).
Proof. reflexivity. Qed.

(** * Further properties of the callbacks *)

(** ** Every pass of the interrupt service routine *)

Section PassFacts.
Context {P : Platform} {C : Collaborators}.

Lemma added_app {A : Type} (l x : list A) : added l (l ++ x) = x.
Proof.
  unfold added. rewrite skipn_app, skipn_all, Nat.sub_diag. reflexivity.
Qed.

Lemma added_same {A : Type} (l : list A) : added l l = [].
Proof. unfold added. apply skipn_all. Qed.


(** The three ways a pass can go. *)
Lemma OnInterruptIsr_cases (w : World) :
  (DiagnosticMode (dev w) = true /\ OnInterruptIsr w = (true, w))
  \/ (exists status reports tc spb,
        DiagnosticMode (dev w) = false
        /\ TchServiceInterrupts
             (TouchContext (dev w)) (I2CContext (dev w)) (InputMode (dev w))
           = (status, reports, tc, spb)
        /\ NT_SUCCESS status = false
        /\ OnInterruptIsr w
           = (true,
              {| dev := set_I2CContext spb (set_TouchContext tc (dev w));
                 log := log w ++ [EvCall CallTchServiceInterrupts] |}))
  \/ (exists status reports tc spb,
        DiagnosticMode (dev w) = false
        /\ TchServiceInterrupts
             (TouchContext (dev w)) (I2CContext (dev w)) (InputMode (dev w))
           = (status, reports, tc, spb)
        /\ NT_SUCCESS status = true
        /\ OnInterruptIsr w
           = (true,
              {| dev := set_PingPongQueue
                          (skipn (length reports) (PingPongQueue (dev w)))
                          (set_I2CContext spb (set_TouchContext tc (dev w)));
                 log := log w
                        ++ EvCall CallTchServiceInterrupts
                        :: EvDbgPrint (DbgReported (Z.of_nat (length reports)))
                        :: pass_events 0 (PingPongQueue (dev w)) reports |})).
Proof.
  destruct (DiagnosticMode (dev w)) eqn:Hdiag.
  - left. split; [reflexivity|].
    unfold OnInterruptIsr, OnInterruptIsr_body, bind, get_dev.
    rewrite Hdiag. reflexivity.
  - right.
    destruct (TchServiceInterrupts
                (TouchContext (dev w)) (I2CContext (dev w)) (InputMode (dev w)))
      as [[[status reports] tc] spb] eqn:Hsvc.
    destruct (NT_SUCCESS status) eqn:Hok.
    + right. exists status, reports, tc, spb. repeat split.
      * exact Hok.
      * apply (OnInterruptIsr_success w _ _ _ _ Hdiag Hsvc Hok).
    + left. exists status, reports, tc, spb. repeat split.
      * exact Hok.
      * unfold OnInterruptIsr, bind.
        rewrite (OnInterruptIsr_body_failure w _ _ _ _ Hdiag Hsvc Hok).
        reflexivity.
Qed.

Lemma completions_failure_log (l : list Event) :
  completions (l ++ [EvCall CallTchServiceInterrupts]) = completions l.
Proof. rewrite completions_app. apply app_nil_r. Qed.

Lemma completions_of_ids queue :
  forall reports,
    map (fun c => RequestId (fst c)) (completions_of queue reports)
    = map RequestId (firstn (length reports) queue).
Proof.
  induction queue as [|request queue IH]; intros [|report reports];
    try reflexivity.
  unfold completions_of in *. simpl. rewrite IH. f_equal.
  unfold completion_of. destruct (too_small request); reflexivity.
Qed.

Lemma completions_of_In queue reports c :
  In c (completions_of queue reports) ->
  exists request report,
    In request queue /\ In report reports
    /\ c = completion_of request report.
Proof.
  unfold completions_of. intros H.
  apply in_map_iff in H as [[request report] [Hc Hin]].
  exists request, report. repeat split.
  - apply (in_combine_l _ _ _ _ Hin).
  - apply (in_combine_r _ _ _ _ Hin).
  - symmetry. exact Hc.
Qed.

End PassFacts.

(** X1: whatever a pass does (diagnostic mode, failing or succeeding
    report source), every request that was pending when it started is
    afterwards either completed by this pass, exactly once, or still
    pending, and both keep the arrival order: the ids of the requests
    completed by the pass followed by the ids still queued are the ids
    queued at the start. *)
Theorem OnInterruptIsr_conserves_requests
  {P : Platform} {C : Collaborators} (w : World) :
  let w' := snd (OnInterruptIsr w) in
  let done := added (completions (log w)) (completions (log w')) in
  completions (log w') = completions (log w) ++ done
  /\ map (fun c => RequestId (fst c)) done
     ++ map RequestId (PingPongQueue (dev w'))
     = map RequestId (PingPongQueue (dev w)).
Proof.
  intros w' done. unfold done, w'.
  destruct (OnInterruptIsr_cases w)
    as [[_ Hrun] | [(st & rs & tc & spb & _ & _ & _ & Hrun)
                   | (st & rs & tc & spb & _ & _ & _ & Hrun)]];
    rewrite Hrun; cbn [snd dev log PingPongQueue set_PingPongQueue
                         set_I2CContext set_TouchContext].
  - rewrite added_same, app_nil_r. split; reflexivity.
  - rewrite completions_failure_log, added_same, app_nil_r.
    split; reflexivity.
  - rewrite completions_service_log, added_app. split; [reflexivity|].
    rewrite completions_of_ids, <- map_app, firstn_skipn. reflexivity.
Qed.


(** X3: no pass writes the mode fields or the post-wake flag of the
    device context: [DiagnosticMode], [InputMode] and
    [ServiceInterruptsAfterD0Entry] are after the pass what they were
    before it. In particular the flag set by [OnD0Entry] is not cleared
    by servicing an interrupt. *)
Theorem OnInterruptIsr_keeps_modes_and_flag
  {P : Platform} {C : Collaborators} (w : World) :
  DiagnosticMode (dev (snd (OnInterruptIsr w))) = DiagnosticMode (dev w)
  /\ InputMode (dev (snd (OnInterruptIsr w))) = InputMode (dev w)
  /\ ServiceInterruptsAfterD0Entry (dev (snd (OnInterruptIsr w)))
     = ServiceInterruptsAfterD0Entry (dev w).
Proof.
  destruct (OnInterruptIsr_cases w)
    as [[_ Hrun] | [(st & rs & tc & spb & _ & _ & _ & Hrun)
                   | (st & rs & tc & spb & _ & _ & _ & Hrun)]];
    rewrite Hrun; repeat split.
Qed.

(** X4: a report is only ever copied into a buffer that has room for it.
    Every completion made by a pass is of one of two kinds: a request
    that was pending, with a buffer of at least one report's size,
    completed with [STATUS_SUCCESS], [Information] set to the report
    size and one of the reports returned by this call of
    [TchServiceInterrupts] in its buffer; or a request that was pending,
    with a shorter buffer, completed as it was with
    [STATUS_BUFFER_TOO_SMALL]. *)
Theorem OnInterruptIsr_completion_kinds
  {P : Platform} {C : Collaborators} (w : World) c :
  In c (added (completions (log w))
          (completions (log (snd (OnInterruptIsr w))))) ->
  (exists request report,
     In request (PingPongQueue (dev w))
     /\ In report
          (snd (fst (fst (TchServiceInterrupts
                            (TouchContext (dev w)) (I2CContext (dev w))
                            (InputMode (dev w))))))
     /\ sizeof_HID_INPUT_REPORT <= OutputBufferLength request
     /\ c = (filled request report, STATUS_SUCCESS))
  \/ (exists request,
        In request (PingPongQueue (dev w))
        /\ OutputBufferLength request < sizeof_HID_INPUT_REPORT
        /\ c = (request, STATUS_BUFFER_TOO_SMALL)).
Proof.
  destruct (OnInterruptIsr_cases w)
    as [[_ Hrun] | [(st & rs & tc & spb & _ & _ & _ & Hrun)
                   | (st & rs & tc & spb & _ & Hsvc & _ & Hrun)]];
    rewrite Hrun; cbn [snd log].
  - rewrite added_same. intros [].
  - rewrite completions_failure_log, added_same. intros [].
  - rewrite completions_service_log, added_app, Hsvc. cbn [fst snd].
    intros Hin.
    apply completions_of_In in Hin
      as (request & report & Hq & Hr & Hc).
    unfold completion_of, too_small in Hc.
    destruct (OutputBufferLength request <? sizeof_HID_INPUT_REPORT) eqn:E.
    + right. exists request. apply Z.ltb_lt in E. auto.
    + left. exists request, report. apply Z.ltb_ge in E. auto.
Qed.

Lemma OnInterruptIsr_completion_kinds_witness :
  (exists request report,
     In request (PingPongQueue (dev Demo.busy_world))
     /\ In report
          (snd (fst (fst (TchServiceInterrupts
                            (Collaborators := Demo.collaborators)
                            (TouchContext (dev Demo.busy_world))
                            (I2CContext (dev Demo.busy_world))
                            (InputMode (dev Demo.busy_world))))))
     /\ sizeof_HID_INPUT_REPORT (Platform := Demo.platform) <= OutputBufferLength request
     /\ (filled (Demo.request 3 16) 33, STATUS_SUCCESS)
        = (filled request report, STATUS_SUCCESS))
  \/ (exists request,
        In request (PingPongQueue (dev Demo.busy_world))
        /\ OutputBufferLength request < sizeof_HID_INPUT_REPORT (Platform := Demo.platform)
        /\ (filled (Demo.request 3 16) 33, STATUS_SUCCESS)
           = (request, STATUS_BUFFER_TOO_SMALL)).
Proof.
  apply (OnInterruptIsr_completion_kinds (C := Demo.collaborators)
           Demo.busy_world (filled (Demo.request 3 16) 33, STATUS_SUCCESS)).
  vm_compute. right. right. left. reflexivity.
Defined.

(** X5: when the report source succeeds while no request is pending,
    every report of the pass is dropped: one "no request pending" trace
    per report, no completion, and the queue is still empty. The reports
    are not kept for a request that arrives later. *)
Theorem OnInterruptIsr_empty_queue
  {P : Platform} {C : Collaborators} (w : World) status reports tc spb :
  DiagnosticMode (dev w) = false ->
  TchServiceInterrupts
    (TouchContext (dev w)) (I2CContext (dev w)) (InputMode (dev w))
  = (status, reports, tc, spb) ->
  NT_SUCCESS status = true ->
  PingPongQueue (dev w) = [] ->
  completions (log (snd (OnInterruptIsr w))) = completions (log w)
  /\ dropped (log (snd (OnInterruptIsr w)))
     = (dropped (log w) + length reports)%nat
  /\ dev (snd (OnInterruptIsr w))
     = set_I2CContext spb (set_TouchContext tc (dev w)).
Proof.
  intros Hdiag Hsvc Hok Hq.
  rewrite (OnInterruptIsr_success w _ _ _ _ Hdiag Hsvc Hok).
  cbn [snd dev log].
  rewrite completions_service_log, dropped_service_log, Hq, skipn_nil.
  repeat split.
  - unfold completions_of. simpl. apply app_nil_r.
  - simpl. rewrite Nat.sub_0_r. reflexivity.
  - rewrite <- Hq.
    change (PingPongQueue (dev w))
      with (PingPongQueue (set_I2CContext spb (set_TouchContext tc (dev w)))).
    apply set_PingPongQueue_same.
Qed.

Lemma OnInterruptIsr_empty_queue_witness :
  completions
    (log (snd (OnInterruptIsr (C := Demo.collaborators)
                 (Demo.world STATUS_SUCCESS [11; 22] false []))))
  = []
  /\ dropped
       (log (snd (OnInterruptIsr (C := Demo.collaborators)
                    (Demo.world STATUS_SUCCESS [11; 22] false []))))
     = 2%nat
  /\ dev (snd (OnInterruptIsr (C := Demo.collaborators)
                 (Demo.world STATUS_SUCCESS [11; 22] false [])))
     = dev (Demo.world STATUS_SUCCESS [11; 22] false []).
Proof.
  apply (OnInterruptIsr_empty_queue (C := Demo.collaborators)
           (Demo.world STATUS_SUCCESS [11; 22] false [])
           STATUS_SUCCESS [11; 22]);
    reflexivity.
Defined.

(** X6: when the report source succeeds with no report, the loop does
    not run: no request is popped or completed, nothing is dropped, and
    the pass only logs the call and the report count. *)
Theorem OnInterruptIsr_no_reports
  {P : Platform} {C : Collaborators} (w : World) status tc spb :
  DiagnosticMode (dev w) = false ->
  TchServiceInterrupts
    (TouchContext (dev w)) (I2CContext (dev w)) (InputMode (dev w))
  = (status, [], tc, spb) ->
  NT_SUCCESS status = true ->
  OnInterruptIsr w
  = (true,
     {| dev := set_I2CContext spb (set_TouchContext tc (dev w));
        log := log w
               ++ [EvCall CallTchServiceInterrupts;
                   EvDbgPrint (DbgReported 0)] |}).
Proof.
  intros Hdiag Hsvc Hok.
  rewrite (OnInterruptIsr_success w _ _ _ _ Hdiag Hsvc Hok).
  cbn [length skipn pass_events Z.of_nat].
  change (PingPongQueue (dev w))
    with (PingPongQueue (set_I2CContext spb (set_TouchContext tc (dev w)))).
  rewrite set_PingPongQueue_same. reflexivity.
Qed.

Lemma OnInterruptIsr_no_reports_witness :
  OnInterruptIsr (C := Demo.collaborators)
    (Demo.world STATUS_SUCCESS [] false [Demo.request 1 8])
  = (true,
     {| dev := dev (Demo.world STATUS_SUCCESS [] false [Demo.request 1 8]);
        log := [EvCall CallTchServiceInterrupts;
                EvDbgPrint (DbgReported 0)] |}).
Proof.
  apply (OnInterruptIsr_no_reports (C := Demo.collaborators)
           (Demo.world STATUS_SUCCESS [] false [Demo.request 1 8])
           STATUS_SUCCESS);
    reflexivity.
Defined.

(** ** Power transitions and release, step by step *)

Section StepFacts.
Context {P : Platform} {C : Collaborators}.

Lemma traces_app (l1 l2 : list Event) :
  traces (l1 ++ l2) = traces l1 ++ traces l2.
Proof. unfold traces. apply flat_map_app. Qed.



(** What [OnReleaseHardware] does, in full. *)
Lemma OnReleaseHardware_run (w : World) stop_status tc spb free_status tc' :
  TchStopDevice (TouchContext (dev w)) (I2CContext (dev w))
  = (stop_status, tc, spb) ->
  TchFreeContext tc = (free_status, tc') ->
  OnReleaseHardware w
  = (free_status,
     {| dev := set_I2CContext (SpbTargetDeinitialize spb)
                 (set_TouchContext tc' (dev w));
        log := log w
               ++ EvCall CallTchStopDevice
               :: (if NT_SUCCESS stop_status then []
                   else [EvTrace ErrorStoppingDevice stop_status])
               ++ EvCall CallTchFreeContext
               :: (if NT_SUCCESS free_status then []
                   else [EvTrace ErrorFreeingTouchContext free_status])
               ++ [EvCall CallSpbTargetDeinitialize] |}).
Proof.
  intros Hstop Hfree.
  unfold OnReleaseHardware, bind, call_touch_spb, call_touch,
    call_SpbTargetDeinitialize, when, Trace, emit, ret.
  cbv zeta. rewrite Hstop.
  destruct (NT_SUCCESS stop_status); simpl; rewrite Hfree;
    destruct (NT_SUCCESS free_status); simpl;
    rewrite <- ?app_assoc; reflexivity.
Qed.

End StepFacts.


(** X8: [OnD0Exit] returns the status of [TchStandbyDevice], which is the
    only collaborator it calls; it logs the "error exiting D0" trace
    exactly when that status is a failure; it completes no request and
    leaves the pending queue, the mode fields and the post-wake flag of
    the device context as they were. *)
Theorem OnD0Exit_effects
  {P : Platform} {C : Collaborators} (w : World) :
  let status :=
    fst (fst (TchStandbyDevice (TouchContext (dev w)) (I2CContext (dev w)))) in
  let w' := snd (OnD0Exit w) in
  fst (OnD0Exit w) = status
  /\ calls (log w') = calls (log w) ++ [CallTchStandbyDevice]
  /\ traces (log w')
     = traces (log w)
       ++ (if NT_SUCCESS status then [] else [(ErrorExitingD0, status)])
  /\ completions (log w') = completions (log w)
  /\ PingPongQueue (dev w') = PingPongQueue (dev w)
  /\ DiagnosticMode (dev w') = DiagnosticMode (dev w)
  /\ InputMode (dev w') = InputMode (dev w)
  /\ ServiceInterruptsAfterD0Entry (dev w')
     = ServiceInterruptsAfterD0Entry (dev w).
Proof.
  unfold OnD0Exit, bind, call_touch_spb, when, Trace, emit, ret.
  cbv zeta.
  destruct (TchStandbyDevice (TouchContext (dev w)) (I2CContext (dev w)))
    as [[status tc] spb].
  destruct (NT_SUCCESS status) eqn:Hok; simpl; rewrite ?Hok;
    rewrite ?calls_app, ?traces_app, ?completions_app; simpl;
    rewrite ?app_nil_r, <- ?app_assoc; repeat split.
Qed.

(** X9: [OnReleaseHardware] logs one error trace for each of
    [TchStopDevice] and [TchFreeContext] that fails, with its status and
    in that order, so a failure of [TchStopDevice] is logged although it
    is not returned; it completes no request and leaves the pending
    queue, the mode fields and the post-wake flag as they were. *)
Theorem OnReleaseHardware_traces_and_frame
  {P : Platform} {C : Collaborators} (w : World) :
  let stopped := TchStopDevice (TouchContext (dev w)) (I2CContext (dev w)) in
  let stop_status := fst (fst stopped) in
  let free_status := fst (TchFreeContext (snd (fst stopped))) in
  let w' := snd (OnReleaseHardware w) in
  traces (log w')
  = traces (log w)
    ++ (if NT_SUCCESS stop_status then []
        else [(ErrorStoppingDevice, stop_status)])
    ++ (if NT_SUCCESS free_status then []
        else [(ErrorFreeingTouchContext, free_status)])
  /\ completions (log w') = completions (log w)
  /\ PingPongQueue (dev w') = PingPongQueue (dev w)
  /\ DiagnosticMode (dev w') = DiagnosticMode (dev w)
  /\ InputMode (dev w') = InputMode (dev w)
  /\ ServiceInterruptsAfterD0Entry (dev w')
     = ServiceInterruptsAfterD0Entry (dev w).
Proof.
  destruct (TchStopDevice (TouchContext (dev w)) (I2CContext (dev w)))
    as [[stop_status tc] spb] eqn:Hstop.
  cbn [fst snd].
  destruct (TchFreeContext tc) as [free_status tc'] eqn:Hfree.
  cbn [fst snd].
  rewrite (OnReleaseHardware_run w _ _ _ _ _ Hstop Hfree). cbn [snd log dev].
  rewrite traces_app, completions_app.
  destruct (NT_SUCCESS stop_status), (NT_SUCCESS free_status); simpl;
    rewrite ?app_nil_r; repeat split.
Qed.

(** ** Preparing the hardware, step by step *)

Section BindFacts.
Context {P : Platform} {C : Collaborators}.

Lemma last_I2C_connection_some resources d :
  last_I2C_connection resources = Some d ->
  existsb is_I2C_connection resources = true.
Proof.
  intros Hlast.
  destruct (existsb is_I2C_connection resources) eqn:E; [reflexivity|].
  rewrite (last_I2C_connection_none _ E) in Hlast. discriminate.
Qed.

Lemma filter_is_I2C_connection_twice resources :
  filter is_I2C_connection (filter is_I2C_connection resources)
  = filter is_I2C_connection resources.
Proof.
  induction resources as [|res rest IH]; [reflexivity|].
  simpl. destruct (is_I2C_connection res) eqn:E; [|exact IH].
  simpl. rewrite E, IH. reflexivity.
Qed.

Ltac reached n :=
  exists n;
  repeat match goal with
         | H : NT_SUCCESS _ = _ |- _ => rewrite ?H; clear H
         end;
  rewrite ?calls_app, ?traces_app, ?completions_app; simpl;
  rewrite ?app_nil_r, <- ?app_assoc; simpl;
  solve [repeat split; auto; intros; try discriminate; auto].

(** How far [OnPrepareHardware] gets: after [n] collaborator calls it
    either leaves with a failure status and one trace, or has made all
    four calls and leaves with the status of the last one. *)
Lemma OnPrepareHardware_outcome resources (w : World) status w' :
  OnPrepareHardware resources w = (status, w') ->
  exists n,
    calls (log w') = calls (log w) ++ firstn n bind_steps
    /\ traces (log w')
       = traces (log w)
         ++ (if NT_SUCCESS status then []
             else [(bind_error_site n, status)])
    /\ (NT_SUCCESS status = true ->
        n = 4%nat /\ existsb is_I2C_connection resources = true)
    /\ completions (log w') = completions (log w)
    /\ PingPongQueue (dev w') = PingPongQueue (dev w)
    /\ DiagnosticMode (dev w') = DiagnosticMode (dev w)
    /\ InputMode (dev w') = InputMode (dev w)
    /\ ServiceInterruptsAfterD0Entry (dev w')
       = ServiceInterruptsAfterD0Entry (dev w).
Proof.
  destruct w as [d0 l]. unfold OnPrepareHardware, bind.
  rewrite scan_resources_run.
  destruct (last_I2C_connection resources) as [d|] eqn:Hlast.
  - pose proof (last_I2C_connection_some _ _ Hlast) as Hsome.
    unfold call_SpbTargetInitialize, call_touch, call_touch_spb,
      Trace, emit, ret.
    cbv zeta. simpl.
    repeat
      (simpl;
       match goal with
       | |- context [SpbTargetInitialize ?x] =>
           destruct (SpbTargetInitialize x) as [? ?]
       | |- context [TchStartDevice ?a ?b] =>
           destruct (TchStartDevice a b) as [[? ?] ?]
       | |- context [TchAllocateContext ?x] =>
           destruct (TchAllocateContext x) as [? ?]
       | |- context [TchRegistryGetControllerSettings ?x] =>
           destruct (TchRegistryGetControllerSettings x) as [? ?]
       | |- context [NT_SUCCESS ?s] => destruct (NT_SUCCESS s) eqn:?
       end);
      intros Hrun; inversion Hrun; subst; clear Hrun;
      cbn [dev log];
      first [ congruence
            | reached 1%nat | reached 2%nat | reached 3%nat | reached 4%nat ].
  - rewrite NT_SUCCESS_STATUS_INSUFFICIENT_RESOURCES.
    unfold Trace, emit, ret. simpl.
    intros Hrun; inversion Hrun; subst; clear Hrun. cbn [dev log].
    exists 0%nat. rewrite NT_SUCCESS_STATUS_INSUFFICIENT_RESOURCES.
    rewrite calls_app, traces_app, completions_app. simpl.
    rewrite !app_nil_r. repeat split; intros; discriminate.
Qed.

End BindFacts.


(** X11: [OnPrepareHardware] completes no request and leaves the pending
    queue, [DiagnosticMode], [InputMode] and
    [ServiceInterruptsAfterD0Entry] as they were, whether it succeeds or
    fails. *)
Theorem OnPrepareHardware_frame
  {P : Platform} {C : Collaborators}
  (FxResourcesTranslated : list CM_PARTIAL_RESOURCE_DESCRIPTOR) (w : World) :
  let w' := snd (OnPrepareHardware FxResourcesTranslated w) in
  completions (log w') = completions (log w)
  /\ PingPongQueue (dev w') = PingPongQueue (dev w)
  /\ DiagnosticMode (dev w') = DiagnosticMode (dev w)
  /\ InputMode (dev w') = InputMode (dev w)
  /\ ServiceInterruptsAfterD0Entry (dev w')
     = ServiceInterruptsAfterD0Entry (dev w).
Proof.
  destruct (OnPrepareHardware FxResourcesTranslated w) as [status w'] eqn:Hrun.
  destruct (OnPrepareHardware_outcome _ _ _ _ Hrun)
    as (n & _ & _ & _ & Hframe).
  exact Hframe.
Qed.



(** X13: when [OnPrepareHardware] returns a failure status, it traced
    exactly one error, and that trace carries the returned status. *)
Theorem OnPrepareHardware_failure_traced_once
  {P : Platform} {C : Collaborators}
  (FxResourcesTranslated : list CM_PARTIAL_RESOURCE_DESCRIPTOR) (w : World) :
  NT_SUCCESS (fst (OnPrepareHardware FxResourcesTranslated w)) = false ->
  exists site,
    traces (log (snd (OnPrepareHardware FxResourcesTranslated w)))
    = traces (log w)
      ++ [(site, fst (OnPrepareHardware FxResourcesTranslated w))].
Proof.
  destruct (OnPrepareHardware FxResourcesTranslated w) as [status w'] eqn:Hrun.
  cbn [fst snd]. intros Hfail.
  destruct (OnPrepareHardware_outcome _ _ _ _ Hrun)
    as (n & _ & Htraces & _).
  rewrite Hfail in Htraces.
  exists (bind_error_site n). exact Htraces.
Qed.

Lemma OnPrepareHardware_failure_traced_once_witness :
  exists site,
    traces
      (log (snd (OnPrepareHardware (C := Script.collaborators)
                   [Demo.i2c_res_a]
                   (Script.world [STATUS_SUCCESS; Script.STATUS_IO_TIMEOUT]
                      [] []))))
    = traces (log (Script.world [STATUS_SUCCESS; Script.STATUS_IO_TIMEOUT]
                     [] []))
      ++ [(site,
           fst (OnPrepareHardware (C := Script.collaborators)
                  [Demo.i2c_res_a]
                  (Script.world [STATUS_SUCCESS; Script.STATUS_IO_TIMEOUT]
                     [] [])))].
Proof.
  apply (OnPrepareHardware_failure_traced_once (C := Script.collaborators)
           [Demo.i2c_res_a]
           (Script.world [STATUS_SUCCESS; Script.STATUS_IO_TIMEOUT] [] [])).
  reflexivity.
Defined.

(** X14: [SpbTargetInitialize] is handed the transport context that
    already holds the connection id of the last serial I2C descriptor.
    When it fails, [OnPrepareHardware] returns its status after tracing
    it once: no controller routine is called and the touch context is
    untouched. *)
Theorem OnPrepareHardware_transport_failure
  {P : Platform} {C : Collaborators}
  (FxResourcesTranslated : list CM_PARTIAL_RESOURCE_DESCRIPTOR)
  (d : CM_PARTIAL_RESOURCE_DESCRIPTOR) (w : World) status spb :
  last_I2C_connection FxResourcesTranslated = Some d ->
  SpbTargetInitialize (set_I2cResHubId (connection_id d) (I2CContext (dev w)))
  = (status, spb) ->
  NT_SUCCESS status = false ->
  OnPrepareHardware FxResourcesTranslated w
  = (status,
     {| dev := set_I2CContext spb (dev w);
        log := log w
               ++ [EvCall CallSpbTargetInitialize;
                   EvTrace ErrorSpbInitialization status] |}).
Proof.
  intros Hlast Hinit Hfail. destruct w as [d0 l].
  unfold OnPrepareHardware, bind.
  rewrite scan_resources_run, Hlast.
  unfold call_SpbTargetInitialize, Trace, emit, ret. cbv zeta.
  cbn [dev log] in *. simpl.
  change (I2CContext (store_I2cResHubId (connection_id d) d0))
    with (set_I2cResHubId (connection_id d) (I2CContext d0)).
  rewrite Hinit, Hfail. simpl. rewrite <- app_assoc. reflexivity.
Qed.

Lemma OnPrepareHardware_transport_failure_witness :
  OnPrepareHardware (C := Script.collaborators)
    [Demo.i2c_res_a; Demo.i2c_res_b]
    (Script.world [] [Script.STATUS_DEVICE_NOT_READY] [])
  = (Script.STATUS_DEVICE_NOT_READY,
     {| dev := set_I2CContext
                 (@Build_SPB_CONTEXT Script.platform
                    (connection_id Demo.i2c_res_b) [])
                 (dev (Script.world [] [Script.STATUS_DEVICE_NOT_READY] []));
        log := log (Script.world [] [Script.STATUS_DEVICE_NOT_READY] [])
               ++ [EvCall CallSpbTargetInitialize;
                   EvTrace ErrorSpbInitialization
                     Script.STATUS_DEVICE_NOT_READY] |}).
Proof.
  apply (OnPrepareHardware_transport_failure (C := Script.collaborators)
           [Demo.i2c_res_a; Demo.i2c_res_b] Demo.i2c_res_b
           (Script.world [] [Script.STATUS_DEVICE_NOT_READY] []));
    reflexivity.
Defined.

(** X15: descriptors that are not serial I2C connections have no effect
    on [OnPrepareHardware]: it does on a resource list what it does on
    the sublist of its serial I2C connection descriptors. *)
Theorem OnPrepareHardware_ignores_other_resources
  {P : Platform} {C : Collaborators}
  (FxResourcesTranslated : list CM_PARTIAL_RESOURCE_DESCRIPTOR) (w : World) :
  OnPrepareHardware FxResourcesTranslated w
  = OnPrepareHardware (filter is_I2C_connection FxResourcesTranslated) w.
Proof.
  destruct w as [d0 l]. unfold OnPrepareHardware, bind.
  rewrite !scan_resources_run. unfold last_I2C_connection.
  rewrite filter_is_I2C_connection_twice. reflexivity.
Qed.


(** X17: the connection id is stored bit for bit. The low part is the
    descriptor's [IdLowPart]; the signed [HighPart] lies in the range of
    a [LONG] and, read back as an unsigned 32-bit number, is the
    descriptor's [IdHighPart], also when that has its top bit set. *)
Theorem connection_id_round_trip (res : CM_PARTIAL_RESOURCE_DESCRIPTOR) :
  0 <= Connection_IdHighPart res < 2 ^ 32 ->
  LowPart (connection_id res) = Connection_IdLowPart res
  /\ HighPart (connection_id res) mod 2 ^ 32 = Connection_IdHighPart res
  /\ - 2 ^ 31 <= HighPart (connection_id res) < 2 ^ 31.
Proof.
  intros Hhigh. unfold connection_id. cbn [LowPart HighPart].
  split; [reflexivity | split].
  - rewrite to_LONG_mod. apply Z.mod_small. assumption.
  - apply to_LONG_range.
Qed.

Lemma connection_id_round_trip_witness :
  LowPart (connection_id Demo.i2c_res_b) = 2
  /\ HighPart (connection_id Demo.i2c_res_b) mod 2 ^ 32 = 0x80000000
  /\ - 2 ^ 31 <= HighPart (connection_id Demo.i2c_res_b) < 2 ^ 31.
Proof.
  apply (connection_id_round_trip Demo.i2c_res_b).
  vm_compute. split; [discriminate | reflexivity].
Defined.
